(** * voxblox_node: the TSDF store, its two point-cloud extractions and the
    observation callback of [VoxbloxNode] (voxblox_ros/src/voxblox_node.cc).

    Scalars are IEEE-754 values ([spec_float] of the Standard Library): the
    node's [float] locals are binary32, the literals [0.75], [0.0] and [0.02]
    are binary64.  The typedef [FloatingPoint] of voxblox/core lives in a
    header that is not part of this file's source, so its format is a
    parameter of the development. *)

From Stdlib Require Import ZArith Bool SpecFloat.
From stdpp Require Import base option list sorting gmap strings.

Local Open Scope Z_scope.

(** ** IEEE-754 scalars *)

Module IEEE.

Record format := Format { prec : Z; emax : Z }.

Definition binary32 : format := Format 24 128.
Definition binary64 : format := Format 53 1024.

(** Conversion between formats (round to nearest, ties to even). *)
Definition convert (f : format) (x : spec_float) : spec_float :=
  match x with
  | S754_finite s m e => binary_round (prec f) (emax f) s m e
  | _ => x
  end.

Definition of_Z (f : format) (n : Z) : spec_float :=
  binary_normalize (prec f) (emax f) n 0 false.

Definition add (f : format) := SFadd (prec f) (emax f).
Definition mul (f : format) := SFmul (prec f) (emax f).
Definition div (f : format) := SFdiv (prec f) (emax f).

(** The binary64 value of a decimal literal [num / den]. *)
Definition literal (num den : Z) : spec_float :=
  div binary64 (of_Z binary64 num) (of_Z binary64 den).

Definition is_nan (x : spec_float) : bool :=
  match x with S754_nan => true | _ => false end.

End IEEE.

(** C++ [float] and [double]. *)
Abbreviation float := spec_float.
Definition to_float : spec_float -> float := IEEE.convert IEEE.binary32.
Definition to_double : spec_float -> spec_float := IEEE.convert IEEE.binary64.

(** ** Data model *)

(** [voxblox::Color]: four [uint8_t] channels. *)
Module Color.
Record t := mk { r : Z; g : Z; b : Z; a : Z }.
End Color.

(** [voxblox::Point]: an Eigen 3-vector of [FloatingPoint]. *)
Module Point.
Record t := mk { x : spec_float; y : spec_float; z : spec_float }.
End Point.

(** [pcl::PointXYZI]. *)
Module PointXYZI.
Record t := mk { x : float; y : float; z : float; intensity : float }.
End PointXYZI.

(** [pcl::PointXYZRGB]; its default constructor sets [a] to 255. *)
Module PointXYZRGB.
Record t := mk { x : float; y : float; z : float;
                 r : Z; g : Z; b : Z; a : Z }.
End PointXYZRGB.

(** [pcl::PointCloud<PointT>]: the header's frame and the points. *)
Module PointCloud.
Record t (PointT : Type) := mk { frame_id : string; points : list PointT }.
Arguments mk {PointT} _ _.
Arguments frame_id {PointT} _.
Arguments points {PointT} _.
End PointCloud.

(** [BlockIndex] and [VoxelIndex] are Eigen 3-vectors of [int]. *)
Definition BlockIndex : Type := Z * Z * Z.
Definition VoxelIndex : Type := Z * Z * Z.

(** [TsdfVoxel], as the node reads it: [voxel.distance], [voxel.weight]
    (both assigned to [float] locals) and [voxel.color]. *)
Module TsdfVoxel.
Record t := mk { distance : float; weight : float; color : Color.t }.
End TsdfVoxel.

(** Modelled from the spec: [TsdfBlock] (voxblox/core, not in this file's
    source).  A block owns a dense array of voxels addressable by local voxel
    coordinates, and carries its origin and the store-wide voxel edge length
    from which it reconstructs world coordinates. *)
Module TsdfBlock.
Record t := mk {
  origin : Point.t;
  voxel_size : spec_float;
  voxels : VoxelIndex -> TsdfVoxel.t
}.
End TsdfBlock.

(** Modelled from the spec: [TsdfMap] (voxblox/core/tsdf_map.h, not in this
    file's source).  The store has two constants fixed at construction and a
    mapping from integer block coordinates to blocks, keys unique. *)
Module TsdfMap.
Record Config := mkConfig {
  tsdf_voxel_size : spec_float;
  tsdf_voxels_per_side : nat
}.
Record t := mk {
  voxel_size : spec_float;
  voxels_per_side : nat;
  block_map : gmap BlockIndex TsdfBlock.t
}.
End TsdfMap.

Section Store.

(** The format of [FloatingPoint]. *)
Context (FloatingPoint : IEEE.format).

(** Modelled from the spec: the [TsdfMap] constructor builds a store with
    the configured geometry and no block. *)
Definition TsdfMap_new (config : TsdfMap.Config) : TsdfMap.t :=
  TsdfMap.mk (TsdfMap.tsdf_voxel_size config)
             (TsdfMap.tsdf_voxels_per_side config) ∅.

(** Modelled from the spec: accessors of the two store-wide constants, of
    the derived voxels-per-block ([voxels_per_side^3]) and of the number of
    allocated blocks. *)
Definition getTsdfVoxelSize (m : TsdfMap.t) : spec_float :=
  TsdfMap.voxel_size m.
Definition getTsdfVoxelsPerSide (m : TsdfMap.t) : nat :=
  TsdfMap.voxels_per_side m.
Definition getTsdfVoxelsPerBlock (m : TsdfMap.t) : nat :=
  (TsdfMap.voxels_per_side m * TsdfMap.voxels_per_side m
   * TsdfMap.voxels_per_side m)%nat.
Definition getNumberOfAllocatedBlocks (m : TsdfMap.t) : nat :=
  size (TsdfMap.block_map m).

(** Modelled from the spec: [getAllAllocatedBlocks] lists the coordinates
    of the allocated blocks, in the enumeration order of the mapping. *)
Definition getAllAllocatedBlocks (m : TsdfMap.t) : list BlockIndex :=
  (map_to_list (TsdfMap.block_map m)).*1.

(** Modelled from the spec: [getBlockByIndex] gives the block at a
    coordinate, and nothing ([None], where the C++ accessor aborts) at an
    unallocated one. *)
Definition getBlockByIndex (m : TsdfMap.t) (index : BlockIndex)
  : option TsdfBlock.t :=
  TsdfMap.block_map m !! index.

(** Modelled from the spec: voxel lookup by local voxel index. *)
Definition getTsdfVoxelByVoxelIndex (block : TsdfBlock.t)
    (voxel_index : VoxelIndex) : TsdfVoxel.t :=
  TsdfBlock.voxels block voxel_index.

(** Modelled from the spec: world-coordinate reconstruction,
    [world_coord = block_origin + voxel_index * voxel_size], computed
    componentwise in [FloatingPoint] arithmetic. *)
Definition getCoordinatesOfTsdfVoxelByVoxelIndex (block : TsdfBlock.t)
    (voxel_index : VoxelIndex) : Point.t :=
  let '(ix, iy, iz) := voxel_index in
  let along o i :=
    IEEE.add FloatingPoint o
      (IEEE.mul FloatingPoint (IEEE.of_Z FloatingPoint i)
                (TsdfBlock.voxel_size block)) in
  Point.mk (along (Point.x (TsdfBlock.origin block)) ix)
           (along (Point.y (TsdfBlock.origin block)) iy)
           (along (Point.z (TsdfBlock.origin block)) iz).

(** ** Loops *)

(** [for (i = 0; i < n; ++i) body]. *)
Definition for_range {S : Type} (n : nat) (body : Z -> S -> S) (s : S) : S :=
  foldl (fun s i => body (Z.of_nat i) s) s (seq 0 n).

(** The three nested loops over [voxel_index.x()], [.y()], [.z()]. *)
Definition for_voxels {S : Type} (vps : nat)
    (body : VoxelIndex -> S -> S) (s : S) : S :=
  for_range vps (fun x =>
    for_range vps (fun y =>
      for_range vps (fun z => body (x, y, z)))) s.

(** [for (const BlockIndex& index : blocks) body], where the body may
    abort. *)
Fixpoint for_blocks {S : Type} (blocks : list BlockIndex)
    (body : BlockIndex -> S -> option S) (s : S) : option S :=
  match blocks with
  | [] => Some s
  | index :: rest => s' ← body index s; for_blocks rest body s'
  end.

(** ** The two extractions *)

(** Body of the innermost loop of [publishAllUpdatedTsdfVoxels].  In
    [weight > 0.0] the weight is promoted to [double], which changes neither
    its sign nor whether it is zero, and the comparison with zero reads
    nothing else.  The assignments [point.x = coord.x()] store a
    [FloatingPoint] in a [float]. *)
Definition distance_voxel_step (block : TsdfBlock.t)
    (voxel_index : VoxelIndex) (pointcloud : list PointXYZI.t)
  : list PointXYZI.t :=
  let voxel := getTsdfVoxelByVoxelIndex block voxel_index in
  let distance := TsdfVoxel.distance voxel in
  let weight := TsdfVoxel.weight voxel in
  let coord := getCoordinatesOfTsdfVoxelByVoxelIndex block voxel_index in
  if SFltb (S754_zero false) weight then
    let point :=
      PointXYZI.mk (to_float (Point.x coord)) (to_float (Point.y coord))
                   (to_float (Point.z coord)) distance in
    pointcloud ++ [point]
  else pointcloud.

(** The point cloud built by [publishAllUpdatedTsdfVoxels].  [reserve]
    does not change the content of the cloud, and [max_distance] is not
    used. *)
Definition allUpdatedTsdfVoxels (m : TsdfMap.t) : option (list PointXYZI.t) :=
  let num_blocks := getNumberOfAllocatedBlocks m in
  let num_voxels_per_block := getTsdfVoxelsPerBlock m in
  let vps := getTsdfVoxelsPerSide m in
  let blocks := getAllAllocatedBlocks m in
  for_blocks blocks (fun index pointcloud =>
    block ← getBlockByIndex m index;
    Some (for_voxels vps (distance_voxel_step block) pointcloud)) [].

(** [surface_distance_thresh = (getTsdfVoxelSize() * 0.75)]: the product
    is taken in [double] (the literal is one) and stored in a [float]. *)
Definition surface_distance_thresh (m : TsdfMap.t) : float :=
  to_float (IEEE.mul IEEE.binary64 (to_double (getTsdfVoxelSize m))
                     (IEEE.literal 75 100)).

(** Body of the innermost loop of [publishTsdfSurfacePoints]; [point.a]
    keeps the value the constructor of the point gave it. *)
Definition surface_voxel_step (thresh : float) (block : TsdfBlock.t)
    (voxel_index : VoxelIndex) (pointcloud : list PointXYZRGB.t)
  : list PointXYZRGB.t :=
  let voxel := getTsdfVoxelByVoxelIndex block voxel_index in
  let distance := TsdfVoxel.distance voxel in
  let weight := TsdfVoxel.weight voxel in
  let color := TsdfVoxel.color voxel in
  let coord := getCoordinatesOfTsdfVoxelByVoxelIndex block voxel_index in
  if SFltb (SFabs distance) thresh && SFltb (S754_zero false) weight then
    let point :=
      PointXYZRGB.mk (to_float (Point.x coord)) (to_float (Point.y coord))
                     (to_float (Point.z coord))
                     (Color.r color) (Color.g color) (Color.b color) 255 in
    pointcloud ++ [point]
  else pointcloud.

(** The point cloud built by [publishTsdfSurfacePoints]. *)
Definition tsdfSurfacePoints (m : TsdfMap.t) : option (list PointXYZRGB.t) :=
  let num_blocks := getNumberOfAllocatedBlocks m in
  let num_voxels_per_block := getTsdfVoxelsPerBlock m in
  let vps := getTsdfVoxelsPerSide m in
  let blocks := getAllAllocatedBlocks m in
  let thresh := surface_distance_thresh m in
  for_blocks blocks (fun index pointcloud =>
    block ← getBlockByIndex m index;
    Some (for_voxels vps (surface_voxel_step thresh block) pointcloud)) [].

End Store.

(** ** Specification vocabulary for the extractions *)

(** The values taken by a loop counter running from [0] to [n - 1]. *)
Definition range (n : nat) : list Z := Z.of_nat <$> seq 0 n.

(** Voxel indices of a block of side [vps], in the order of the loop nest. *)
Definition voxel_indices (vps : nat) : list VoxelIndex :=
  x ← range vps; y ← range vps; z ← range vps; [(x, y, z)].

(** A voxel of the store: the coordinate of its block and its local index. *)
Definition VoxelRef : Type := BlockIndex * VoxelIndex.

(** Every voxel of every allocated block, block by block. *)
Definition voxel_refs (m : TsdfMap.t) : list VoxelRef :=
  index ← getAllAllocatedBlocks m;
  (fun voxel_index => (index, voxel_index))
    <$> voxel_indices (getTsdfVoxelsPerSide m).

Definition in_block (vps : nat) (voxel_index : VoxelIndex) : Prop :=
  let '(x, y, z) := voxel_index in
  (0 <= x < Z.of_nat vps) /\ (0 <= y < Z.of_nat vps) /\ (0 <= z < Z.of_nat vps).

(** [weight > 0]. *)
Definition observed (voxel : TsdfVoxel.t) : Prop :=
  SFltb (S754_zero false) (TsdfVoxel.weight voxel) = true.

(** [weight == 0]. *)
Definition unobserved (voxel : TsdfVoxel.t) : Prop :=
  SFeqb (TsdfVoxel.weight voxel) (S754_zero false) = true.

(** [abs(distance) < thresh]. *)
Definition near_surface (thresh : float) (voxel : TsdfVoxel.t) : Prop :=
  SFltb (SFabs (TsdfVoxel.distance voxel)) thresh = true.

(** [abs(distance) == thresh]. *)
Definition at_threshold (thresh : float) (voxel : TsdfVoxel.t) : Prop :=
  SFeqb (SFabs (TsdfVoxel.distance voxel)) thresh = true.

#[global] Instance observed_dec voxel : Decision (observed voxel) :=
  decide (SFltb (S754_zero false) (TsdfVoxel.weight voxel) = true).

#[global] Instance near_surface_dec thresh voxel :
  Decision (near_surface thresh voxel) :=
  decide (SFltb (SFabs (TsdfVoxel.distance voxel)) thresh = true).

Section Spec.

Context (FloatingPoint : IEEE.format).

(** The world coordinate of a voxel, as a published point carries it. *)
Definition world_xyz (block : TsdfBlock.t) (voxel_index : VoxelIndex)
  : float * float * float :=
  let coord :=
    getCoordinatesOfTsdfVoxelByVoxelIndex FloatingPoint block voxel_index in
  (to_float (Point.x coord), to_float (Point.y coord),
   to_float (Point.z coord)).

(** Dense-distance extraction in the spec's words: an observed voxel gives
    a point with its world coordinate and its distance as payload. *)
Definition spec_distance_point (block : TsdfBlock.t)
    (voxel_index : VoxelIndex) : option PointXYZI.t :=
  let voxel := TsdfBlock.voxels block voxel_index in
  let '(x, y, z) := world_xyz block voxel_index in
  if decide (observed voxel)
  then Some (PointXYZI.mk x y z (TsdfVoxel.distance voxel))
  else None.

(** Surface extraction in the spec's words: an observed voxel closer to
    the surface than the threshold gives a point with its world coordinate
    and its colour. *)
Definition spec_surface_point (thresh : float) (block : TsdfBlock.t)
    (voxel_index : VoxelIndex) : option PointXYZRGB.t :=
  let voxel := TsdfBlock.voxels block voxel_index in
  let '(x, y, z) := world_xyz block voxel_index in
  if decide (observed voxel /\ near_surface thresh voxel)
  then Some (PointXYZRGB.mk x y z
               (Color.r (TsdfVoxel.color voxel))
               (Color.g (TsdfVoxel.color voxel))
               (Color.b (TsdfVoxel.color voxel)) 255)
  else None.

(** The voxels an extraction emits a point for, each with its point, in
    emission order. *)
Definition emitted {PointT : Type}
    (emit : TsdfBlock.t -> VoxelIndex -> option PointT) (m : TsdfMap.t)
  : list (VoxelRef * PointT) :=
  omap (fun ref : VoxelRef =>
          block ← TsdfMap.block_map m !! ref.1;
          point ← emit block ref.2;
          Some (ref, point))
       (voxel_refs m).

Definition dense_emitted (m : TsdfMap.t) : list (VoxelRef * PointXYZI.t) :=
  emitted spec_distance_point m.

Definition surface_emitted (m : TsdfMap.t)
  : list (VoxelRef * PointXYZRGB.t) :=
  emitted (spec_surface_point (surface_distance_thresh m)) m.

End Spec.

(** ** ROS messages *)

(** [ros::Time], in nanoseconds; the zero time asks tf for the latest
    transform. *)
Definition ros_Time : Type := Z.

(** [sensor_msgs::PointField]. *)
Module PointField.
Record t := mk { name : string; offset : Z; datatype : Z; count : Z }.
Definition FLOAT32 : Z := 7.
Definition with_datatype (field : t) (dt : Z) : t :=
  mk (name field) (offset field) dt (count field).
End PointField.

(** [sensor_msgs::PointCloud2]: the parts of the header the node reads, the
    field descriptions and the packed payload. *)
Module PointCloud2.
Record t := mk {
  frame_id : string;
  stamp : ros_Time;
  fields : list PointField.t;
  data : list Z;
  is_dense : bool
}.
Definition with_fields (msg : t) (fs : list PointField.t) : t :=
  mk (frame_id msg) (stamp msg) fs (data msg) (is_dense msg).
End PointCloud2.

(** ** The node *)

Section Node.

(** External collaborators: tf and minkindr, PCL, and the integrator of
    voxblox/integrator, whose call contract alone is known. *)
Context {StampedTransform Transformation : Type}.
Context (transformTFToKindr : StampedTransform -> Transformation).
Context (fromROSMsg : PointCloud2.t -> PointCloud.t PointXYZRGB.t).
Context (removeNaNFromPointCloud :
           PointCloud.t PointXYZRGB.t -> PointCloud.t PointXYZRGB.t).
Context (integratePointCloud :
           Transformation -> list Point.t -> list Color.t ->
           TsdfMap.t -> TsdfMap.t).
Context (FloatingPoint : IEEE.format).

(** The buffer of a [tf::TransformListener] at some instant:
    [canTransform], and [lookupTransform], which gives the transform or
    throws a [tf::TransformException] with its [what()]. *)
Record TransformListener := mkTransformListener {
  tf_canTransform : string -> string -> ros_Time -> bool;
  tf_lookupTransform : string -> string -> ros_Time -> string + StampedTransform
}.

(** The members of [VoxbloxNode] that carry state.  [ray_integrator_] shares
    [tsdf_map_]. *)
Record VoxbloxNode := mkVoxbloxNode {
  world_frame_ : string;
  tf_listener_ : TransformListener;
  tsdf_map_ : TsdfMap.t
}.

Inductive Severity := INFO | WARN | ERROR.

(** What goes out on [sdf_pointcloud_pub_]. *)
Inductive CloudMsg :=
| MsgXYZI (cloud : PointCloud.t PointXYZI.t)
| MsgXYZRGB (cloud : PointCloud.t PointXYZRGB.t).

(** The node's effects on its collaborators. *)
Inductive Event :=
| Log (severity : Severity) (text : string)
| Integrate (T_G_C : Transformation) (points_C : list Point.t)
    (colors : list Color.t)
| Publish (topic : string) (msg : CloudMsg).

(** Computations of the node: they read and update the members, emit
    events, and may abort. *)
Definition M (A : Type) : Type :=
  VoxbloxNode -> option (A * VoxbloxNode * list Event).

#[local] Instance M_ret : MRet M := fun A a node => Some (a, node, []).

#[local] Instance M_bind : MBind M := fun A B f ma node =>
  match ma node with
  | None => None
  | Some (a, node1, events1) =>
      match f a node1 with
      | None => None
      | Some (b, node2, events2) => Some (b, node2, events1 ++ events2)
      end
  end.

Definition get : M VoxbloxNode := fun node => Some (node, node, []).
Definition put (node : VoxbloxNode) : M unit := fun _ => Some (tt, node, []).
Definition emit (e : Event) : M unit := fun node => Some (tt, node, [e]).
Definition abort {A : Type} : M A := fun _ => None.

(** [VoxbloxNode::lookupTransform]; the result is the transform written
    through [transform] when the function returns [true], and [None] when it
    returns [false]. *)
Definition lookupTransform (from_frame to_frame : string) (timestamp : ros_Time)
  : M (option Transformation) :=
  node ← get;
  let tf := tf_listener_ node in
  time_to_lookup ←
    (if negb (tf_canTransform tf to_frame from_frame timestamp)
     then
       _ ← emit (Log WARN
                   "Using latest TF transform instead of timestamp match.");
       mret (0 : ros_Time)
     else mret timestamp);
  match tf_lookupTransform tf to_frame from_frame time_to_lookup with
  | inl what =>
      _ ← emit (Log ERROR
                  ("Error getting TF transform from sensor data: " +:+ what));
      mret None
  | inr tf_transform => mret (Some (transformTFToKindr tf_transform))
  end.

(** [for (size_t d = 0; d < n; ++d) body], the body acting on the message. *)
Fixpoint for_fields (ds : list nat)
    (body : nat -> PointCloud2.t -> M PointCloud2.t) (msg : PointCloud2.t)
  : M PointCloud2.t :=
  match ds with
  | [] => mret msg
  | d :: rest => msg' ← body d msg; for_fields rest body msg'
  end.

(** Body of the loop over [pointcloud_msg->fields]. *)
Definition fix_field (d : nat) (msg : PointCloud2.t) : M PointCloud2.t :=
  match PointCloud2.fields msg !! d with
  | None => abort
  | Some field =>
      let msg' :=
        if String.eqb (PointField.name field) "rgb"
        then PointCloud2.with_fields msg
               (<[d := PointField.with_datatype field PointField.FLOAT32]>
                  (PointCloud2.fields msg))
        else msg in
      _ ← emit (Log INFO ("Got field named: " +:+ PointField.name field));
      mret msg'
  end.

(** Body of the loop that fills [points_C] and [colors]. *)
Definition push_point (cloud : list PointXYZRGB.t) (i : Z)
    (acc : list Point.t * list Color.t) : list Point.t * list Color.t :=
  let '(points_C, colors) := acc in
  match cloud !! Z.to_nat i with
  | None => acc
  | Some p =>
      (points_C ++ [Point.mk (IEEE.convert FloatingPoint (PointXYZRGB.x p))
                             (IEEE.convert FloatingPoint (PointXYZRGB.y p))
                             (IEEE.convert FloatingPoint (PointXYZRGB.z p))],
       colors ++ [Color.mk (PointXYZRGB.r p) (PointXYZRGB.g p)
                           (PointXYZRGB.b p) (PointXYZRGB.a p)])
  end.

(** [ray_integrator_->integratePointCloud]: the integrator writes into the
    store it shares with the node. *)
Definition integrate (T_G_C : Transformation) (points_C : list Point.t)
    (colors : list Color.t) : M unit :=
  node ← get;
  _ ← emit (Integrate T_G_C points_C colors);
  put (mkVoxbloxNode (world_frame_ node) (tf_listener_ node)
         (integratePointCloud T_G_C points_C colors (tsdf_map_ node))).

(** [VoxbloxNode::publishAllUpdatedTsdfVoxels]. *)
Definition publishAllUpdatedTsdfVoxels : M unit :=
  node ← get;
  match allUpdatedTsdfVoxels FloatingPoint (tsdf_map_ node) with
  | None => abort
  | Some points =>
      emit (Publish "sdf_pointcloud"
              (MsgXYZI (PointCloud.mk (world_frame_ node) points)))
  end.

(** [VoxbloxNode::publishTsdfSurfacePoints]. *)
Definition publishTsdfSurfacePoints : M unit :=
  node ← get;
  match tsdfSurfacePoints FloatingPoint (tsdf_map_ node) with
  | None => abort
  | Some points =>
      emit (Publish "sdf_pointcloud"
              (MsgXYZRGB (PointCloud.mk (world_frame_ node) points)))
  end.

(** [VoxbloxNode::insertPointcloudWithTf]; the result is the message as the
    callback leaves it behind its shared pointer. *)
Definition insertPointcloudWithTf (pointcloud_msg : PointCloud2.t)
  : M PointCloud2.t :=
  node ← get;
  found ← lookupTransform (PointCloud2.frame_id pointcloud_msg)
            (world_frame_ node) (PointCloud2.stamp pointcloud_msg);
  match found with
  | Some T_G_C =>
      pointcloud_msg ←
        for_fields (seq 0 (length (PointCloud2.fields pointcloud_msg)))
          fix_field pointcloud_msg;
      let pointcloud_pcl := fromROSMsg pointcloud_msg in
      let pointcloud_pcl := removeNaNFromPointCloud pointcloud_pcl in
      let '(points_C, colors) :=
        for_range (length (PointCloud.points pointcloud_pcl))
          (push_point (PointCloud.points pointcloud_pcl)) ([], []) in
      _ ← emit (Log INFO "Integrating a pointcloud with %d points.");
      _ ← integrate T_G_C points_C colors;
      _ ← emit (Log INFO "Finished integrating, have %d blocks.");
      _ ← publishTsdfSurfacePoints;
      mret pointcloud_msg
  | None => mret pointcloud_msg
  end.

(** A message reaching the subscriber, with the state of the tf buffer when
    its callback runs. *)
Record Arrival := mkArrival {
  tf_state : TransformListener;
  cloud_msg : PointCloud2.t
}.

(** [ros::spin] and [ros::spinOnce]: the queued callbacks run one after the
    other. *)
Fixpoint spin (queue : list Arrival) : M (list PointCloud2.t) :=
  match queue with
  | [] => mret []
  | arrival :: rest =>
      node ← get;
      _ ← put (mkVoxbloxNode (world_frame_ node) (tf_state arrival)
                 (tsdf_map_ node));
      msg ← insertPointcloudWithTf (cloud_msg arrival);
      msgs ← spin rest;
      mret (msg :: msgs)
  end.

(** The constructor: the store of 2 cm voxels, 16 a side (the literal
    [0.02] stored in the configuration), the integrator on the same store,
    then [ros::spinOnce()] on whatever is already queued, then one surface
    publication.  [DCHECK(tsdf_map_)] in the publishers holds from here on:
    the member is never reset again. *)
Definition VoxbloxNode_new (tf : TransformListener) (pending : list Arrival)
  : option (list PointCloud2.t * VoxbloxNode * list Event) :=
  let config :=
    TsdfMap.mkConfig (IEEE.convert FloatingPoint (IEEE.literal 2 100)) 16 in
  let node := mkVoxbloxNode "world" tf (TsdfMap_new config) in
  (msgs ← spin pending;
   _ ← publishTsdfSurfacePoints;
   mret msgs) node.

(** [main]: the node is constructed, then [ros::spin()] serves the
    subscriber with what arrives until shutdown. *)
Definition main (tf : TransformListener) (pending incoming : list Arrival)
  : option (list PointCloud2.t * VoxbloxNode * list Event) :=
  match VoxbloxNode_new tf pending with
  | None => None
  | Some (msgs, node, events) =>
      match spin incoming node with
      | None => None
      | Some (msgs', node', events') =>
          Some (msgs ++ msgs', node', events ++ events')
      end
  end.

(** What was sent to the integrator, and what was published. *)
Definition integrations (events : list Event)
  : list (Transformation * list Point.t * list Color.t) :=
  omap (fun e => match e with
                 | Integrate T_G_C points_C colors =>
                     Some (T_G_C, points_C, colors)
                 | _ => None
                 end) events.

Definition published (events : list Event) : list CloudMsg :=
  omap (fun e => match e with Publish _ msg => Some msg | _ => None end)
       events.

End Node.

(** ** Specification vocabulary for the callback *)

(** The field descriptions after the colour fix: every field named [rgb] is
    declared FLOAT32, the others are as they were. *)
Definition rgb_field_as_float32 (field : PointField.t) : PointField.t :=
  if String.eqb (PointField.name field) "rgb"
  then PointField.with_datatype field PointField.FLOAT32
  else field.

Definition rgb_as_float32 (msg : PointCloud2.t) : PointCloud2.t :=
  PointCloud2.with_fields msg
    (rgb_field_as_float32 <$> PointCloud2.fields msg).

(** None of the three coordinates is a NaN. *)
Definition xyz_not_nan (p : PointXYZRGB.t) : Prop :=
  IEEE.is_nan (PointXYZRGB.x p) = false
  /\ IEEE.is_nan (PointXYZRGB.y p) = false
  /\ IEEE.is_nan (PointXYZRGB.z p) = false.


#[global] Instance xyz_not_nan_dec p : Decision (xyz_not_nan p) :=
  and_dec _ (and_dec _ _).

(** The points and colours of a PCL cloud in the integrator's types. *)
Definition observation_points (FloatingPoint : IEEE.format)
    (cloud : list PointXYZRGB.t) : list Point.t :=
  (fun p => Point.mk (IEEE.convert FloatingPoint (PointXYZRGB.x p))
                     (IEEE.convert FloatingPoint (PointXYZRGB.y p))
                     (IEEE.convert FloatingPoint (PointXYZRGB.z p)))
    <$> cloud.

Definition observation_colors (cloud : list PointXYZRGB.t) : list Color.t :=
  (fun p => Color.mk (PointXYZRGB.r p) (PointXYZRGB.g p)
                     (PointXYZRGB.b p) (PointXYZRGB.a p))
    <$> cloud.

(** ** Emission order *)

(** Order of the loop nest on voxel indices: [x] outermost, [z] innermost. *)
Definition voxel_index_lt (a b : VoxelIndex) : Prop :=
  let '(x1, y1, z1) := a in
  let '(x2, y2, z2) := b in
  x1 < x2 \/ (x1 = x2 /\ (y1 < y2 \/ (y1 = y2 /\ z1 < z2))).

(** [a] is enumerated before [b] in the block list. *)
Definition block_before (blocks : list BlockIndex) (a b : BlockIndex) : Prop :=
  exists i j : nat, (i < j)%nat /\ blocks !! i = Some a /\ blocks !! j = Some b.

(** Block-enumeration order first, voxel-index order within a block. *)
Definition emitted_before (blocks : list BlockIndex) (r1 r2 : VoxelRef)
  : Prop :=
  block_before blocks r1.1 r2.1 \/ (r1.1 = r2.1 /\ voxel_index_lt r1.2 r2.2).

(** ** Scenarios of the spec *)

Definition unobserved_voxel : TsdfVoxel.t :=
  TsdfVoxel.mk (S754_zero false) (S754_zero false) (Color.mk 0 0 0 0).

(** [voxel_size = 0.02]. *)
Definition scenario_voxel_size : float := to_float (IEEE.literal 2 100).

(** A block at the origin in which only voxel (1, 2, 3) was observed, with
    weight 1, the given distance and colour (255, 0, 0, 255). *)
Definition scenario_block (distance : float) : TsdfBlock.t :=
  TsdfBlock.mk
    (Point.mk (S754_zero false) (S754_zero false) (S754_zero false))
    scenario_voxel_size
    (fun vi : VoxelIndex =>
       if decide (vi = (1, 2, 3))
       then TsdfVoxel.mk distance (IEEE.of_Z IEEE.binary32 1)
              (Color.mk 255 0 0 255)
       else unobserved_voxel).

Definition scenario_store (distance : float) : TsdfMap.t :=
  TsdfMap.mk scenario_voxel_size 16
    {[ (0, 0, 0) := scenario_block distance ]}.

(** Scenario A: no block. *)
Definition scenario_A : TsdfMap.t := TsdfMap.mk scenario_voxel_size 16 ∅.
(** Scenario B: [distance = 0.01]. *)
Definition scenario_B : TsdfMap.t :=
  scenario_store (to_float (IEEE.literal 1 100)).
(** Scenario C: [distance = 0.02]. *)
Definition scenario_C : TsdfMap.t :=
  scenario_store (to_float (IEEE.literal 2 100)).
(** Boundary: [distance] equal to the threshold. *)
Definition scenario_boundary : TsdfMap.t :=
  scenario_store (surface_distance_thresh scenario_A).

(** A tf buffer that resolves every transform, one that resolves none, and
    a node around a given store. *)
Definition tf_static : TransformListener (StampedTransform := unit) :=
  mkTransformListener (fun _ _ _ => true) (fun _ _ _ => inr tt).

Definition tf_empty : TransformListener (StampedTransform := unit) :=
  mkTransformListener (fun _ _ _ => false)
    (fun _ _ _ => inl "lookup would require extrapolation").

Definition scenario_node (tf : TransformListener (StampedTransform := unit))
    (m : TsdfMap.t) : VoxbloxNode :=
  mkVoxbloxNode "world" tf m.

(** Stand-ins for the collaborators, to run the callback on: a message
    with an [rgb] field declared UINT32, a decoder that finds one valid
    point and one NaN point in it, the PCL filter as a filter on NaN
    coordinates, and an integrator that allocates the block of scenario B
    whenever it is given a point. *)
Definition example_msg : PointCloud2.t :=
  PointCloud2.mk "camera" 42
    [PointField.mk "x" 0 7 1; PointField.mk "y" 4 7 1;
     PointField.mk "z" 8 7 1; PointField.mk "rgb" 16 6 1]
    [] false.

Definition example_fromROSMsg (msg : PointCloud2.t)
  : PointCloud.t PointXYZRGB.t :=
  PointCloud.mk (PointCloud2.frame_id msg)
    [PointXYZRGB.mk (IEEE.of_Z IEEE.binary32 1) (IEEE.of_Z IEEE.binary32 2)
       (IEEE.of_Z IEEE.binary32 3) 10 20 30 255;
     PointXYZRGB.mk S754_nan S754_nan S754_nan 0 0 0 255].

Definition example_removeNaN (cloud : PointCloud.t PointXYZRGB.t)
  : PointCloud.t PointXYZRGB.t :=
  PointCloud.mk (PointCloud.frame_id cloud)
    (filter xyz_not_nan (PointCloud.points cloud)).

Definition example_integrator (_ : unit) (points_C : list Point.t)
    (_ : list Color.t) (m : TsdfMap.t) : TsdfMap.t :=
  match points_C with
  | [] => m
  | _ :: _ =>
      TsdfMap.mk (TsdfMap.voxel_size m) (TsdfMap.voxels_per_side m)
        (<[ (0, 0, 0) := scenario_block (to_float (IEEE.literal 1 100)) ]>
           (TsdfMap.block_map m))
  end.

Definition example_callback (msg : PointCloud2.t) :=
  insertPointcloudWithTf (fun _ : unit => tt) example_fromROSMsg
    example_removeNaN example_integrator IEEE.binary32 msg.

(** ** Further vocabulary and stand-ins *)

(** The scalars [x] for which [x > 0] holds: the positive finite numbers
    and plus infinity. *)
Definition is_positive (x : float) : bool :=
  match x with
  | S754_finite false _ _ | S754_infinity false => true
  | _ => false
  end.

(** A surface cloud in the given frame. *)
Definition surface_in (frame : string) (c : CloudMsg) : Prop :=
  exists points, c = MsgXYZRGB (PointCloud.mk frame points).

(** A store whose voxel size is zero, and one whose blocks have side 0. *)
Definition zero_size_store : TsdfMap.t :=
  TsdfMap.mk (S754_zero false) 16
    {[ (0, 0, 0) := scenario_block (S754_zero false) ]}.

Definition zero_side_store : TsdfMap.t :=
  TsdfMap.mk scenario_voxel_size 0
    {[ (0, 0, 0) := scenario_block (S754_zero false) ]}.

(** A block whose voxel (1, 2, 3) has the given distance and weight. *)
Definition odd_block (distance weight : float) : TsdfBlock.t :=
  TsdfBlock.mk
    (Point.mk (S754_zero false) (S754_zero false) (S754_zero false))
    scenario_voxel_size
    (fun vi : VoxelIndex =>
       if decide (vi = (1, 2, 3))
       then TsdfVoxel.mk distance weight (Color.mk 1 2 3 4)
       else unobserved_voxel).

Definition odd_store (distance weight : float) : TsdfMap.t :=
  TsdfMap.mk scenario_voxel_size 16
    {[ (0, 0, 0) := odd_block distance weight ]}.

(** A message without colour, a decoder that finds no point, and a tf
    buffer that claims the transform at any time but only has the latest. *)
Definition plain_msg : PointCloud2.t :=
  PointCloud2.mk "camera" 42
    [PointField.mk "x" 0 7 1; PointField.mk "y" 4 7 1;
     PointField.mk "z" 8 7 1]
    [] true.

Definition empty_fromROSMsg (msg : PointCloud2.t)
  : PointCloud.t PointXYZRGB.t :=
  PointCloud.mk (PointCloud2.frame_id msg) [].


Definition tf_unstamped : TransformListener (StampedTransform := unit) :=
  mkTransformListener (fun _ _ _ => false)
    (fun _ _ t => if decide (t = 0) then inr tt
                  else inl "lookup would require extrapolation").

Definition tf_latest_only : TransformListener (StampedTransform := unit) :=
  mkTransformListener (fun _ _ _ => true)
    (fun _ _ t => if decide (t = 0) then inr tt
                  else inl "lookup would require extrapolation").

(* ================================================================== *)
(** * Theorems *)

(** ** Loops as folds over the enumeration *)

Lemma foldl_bind {A B S : Type} (f : S -> B -> S) (g : A -> list B)
    (l : list A) (s : S) :
  foldl f s (l ≫= g) = foldl (fun s a => foldl f s (g a)) s l.
Proof.
  revert s. induction l as [|a l IH]; intros s; simpl; [done|].
  by rewrite foldl_app, IH.
Qed.

Lemma foldl_pointwise {A B : Type} (f g : A -> B -> A) (l : list B) (a : A) :
  (forall a b, f a b = g a b) -> foldl f a l = foldl g a l.
Proof.
  intros Hfg. revert a. induction l as [|b l IH]; intros a; simpl; [done|].
  by rewrite Hfg, IH.
Qed.

Lemma for_range_foldl {S : Type} (n : nat) (body : Z -> S -> S) (s : S) :
  for_range n body s = foldl (fun s i => body i s) s (range n).
Proof.
  unfold for_range, range. generalize (seq 0 n). intros l. revert s.
  induction l as [|i l IH]; intros s; simpl; [done|]. apply IH.
Qed.

Lemma for_voxels_foldl {S : Type} (vps : nat) (body : VoxelIndex -> S -> S)
    (s : S) :
  for_voxels vps body s = foldl (fun s vi => body vi s) s (voxel_indices vps).
Proof.
  unfold for_voxels, voxel_indices.
  rewrite for_range_foldl, foldl_bind.
  apply foldl_pointwise; intros s1 x.
  rewrite for_range_foldl, foldl_bind.
  apply foldl_pointwise; intros s2 y.
  rewrite for_range_foldl, foldl_bind.
  by apply foldl_pointwise.
Qed.

(** A loop whose body appends at most one point computes an [omap]. *)
Lemma foldl_push {A P : Type} (emit : A -> option P)
    (step : A -> list P -> list P) (l : list A) (init : list P) :
  (forall a pc,
     step a pc = match emit a with Some p => pc ++ [p] | None => pc end) ->
  foldl (fun pc a => step a pc) init l = init ++ omap emit l.
Proof.
  intros Hstep. revert init.
  induction l as [|a l IH]; intros init; simpl.
  - by rewrite app_nil_r.
  - rewrite IH, Hstep. destruct (emit a) as [p|]; [|done].
    by rewrite <- app_assoc.
Qed.

Section Traversal.

Context {PointT : Type}.
Context (emit : TsdfBlock.t -> VoxelIndex -> option PointT).
Context (step : TsdfBlock.t -> VoxelIndex -> list PointT -> list PointT).
Hypothesis step_emit : forall block vi pc,
  step block vi pc
  = match emit block vi with Some p => pc ++ [p] | None => pc end.

Lemma emitted_in_block (m : TsdfMap.t) (index : BlockIndex)
    (block : TsdfBlock.t) (l : list VoxelIndex) :
  TsdfMap.block_map m !! index = Some block ->
  (omap (fun ref : VoxelRef =>
           block ← TsdfMap.block_map m !! ref.1;
           point ← emit block ref.2;
           Some (ref, point))
     ((fun voxel_index => (index, voxel_index)) <$> l)).*2
  = omap (emit block) l.
Proof.
  intros Hblock. induction l as [|vi l IH]; [done|].
  cbn. rewrite Hblock. cbn. destruct (emit block vi); cbn; by rewrite IH.
Qed.

Lemma for_blocks_emitted (m : TsdfMap.t) (blocks : list BlockIndex)
    (init : list PointT) :
  (forall index, index ∈ blocks -> is_Some (TsdfMap.block_map m !! index)) ->
  for_blocks blocks (fun index pointcloud =>
      block ← getBlockByIndex m index;
      Some (for_voxels (getTsdfVoxelsPerSide m) (step block) pointcloud)) init
  = Some (init ++
      (omap (fun ref : VoxelRef =>
               block ← TsdfMap.block_map m !! ref.1;
               point ← emit block ref.2;
               Some (ref, point))
         (index ← blocks;
          (fun voxel_index => (index, voxel_index))
            <$> voxel_indices (getTsdfVoxelsPerSide m))).*2).
Proof.
  revert init. induction blocks as [|index rest IH]; intros init Halloc.
  - simpl. by rewrite app_nil_r.
  - destruct (Halloc index) as [block Hblock]; [left|].
    assert (Hget : getBlockByIndex m index = Some block) by exact Hblock.
    cbn [for_blocks]. rewrite Hget. simpl.
    rewrite IH by (intros i Hi; apply Halloc; by right).
    f_equal.
    rewrite for_voxels_foldl, (foldl_push (emit block)) by apply step_emit.
    rewrite omap_app, fmap_app, <- app_assoc. f_equal. f_equal.
    symmetry. by apply emitted_in_block.
Qed.

Lemma allocated_blocks_lookup (m : TsdfMap.t) (index : BlockIndex) :
  index ∈ getAllAllocatedBlocks m <-> is_Some (TsdfMap.block_map m !! index).
Proof.
  unfold getAllAllocatedBlocks. rewrite list_elem_of_fmap. split.
  - intros [[i block] [-> Hin]]. apply elem_of_map_to_list in Hin. by exists block.
  - intros [block Hblock]. exists (index, block). split; [done|].
    by apply elem_of_map_to_list.
Qed.

Lemma traversal_emitted (m : TsdfMap.t) :
  for_blocks (getAllAllocatedBlocks m) (fun index pointcloud =>
      block ← getBlockByIndex m index;
      Some (for_voxels (getTsdfVoxelsPerSide m) (step block) pointcloud)) []
  = Some (emitted emit m).*2.
Proof.
  rewrite for_blocks_emitted; [done|].
  intros index. apply allocated_blocks_lookup.
Qed.

End Traversal.

(** ** The enumeration of voxels *)

Lemma elem_of_range (n : nat) (i : Z) : i ∈ range n <-> 0 <= i < Z.of_nat n.
Proof.
  unfold range. rewrite list_elem_of_fmap. split.
  - intros [k [-> Hk]]. apply elem_of_seq in Hk. lia.
  - intros Hi. exists (Z.to_nat i). split; [lia|]. apply elem_of_seq. lia.
Qed.

Lemma NoDup_range (n : nat) : NoDup (range n).
Proof. apply (NoDup_fmap_2 Z.of_nat), NoDup_seq. Qed.

Lemma StronglySorted_range (n : nat) : StronglySorted Z.lt (range n).
Proof.
  unfold range. generalize 0%nat. induction n as [|n IH]; intros j; simpl.
  - constructor.
  - constructor; [apply IH|]. apply Forall_forall. intros i Hi.
    apply list_elem_of_fmap in Hi as [k [-> Hk]]. apply elem_of_seq in Hk. lia.
Qed.

Lemma elem_of_voxel_indices (vps : nat) (vi : VoxelIndex) :
  vi ∈ voxel_indices vps <-> in_block vps vi.
Proof.
  destruct vi as [[x y] z]. unfold voxel_indices, in_block.
  rewrite list_elem_of_bind. setoid_rewrite list_elem_of_bind.
  setoid_rewrite list_elem_of_bind. setoid_rewrite elem_of_range.
  setoid_rewrite list_elem_of_singleton. split.
  - intros (x' & (y' & (z' & Heq & ?) & ?) & ?). by simplify_eq.
  - intros (? & ? & ?). exists x. split; [|done]. exists y. split; [|done].
    by exists z.
Qed.

Lemma StronglySorted_bind {A B : Type} (RA : relation A) (RB : relation B)
    (f : A -> list B) (l : list A) :
  StronglySorted RA l ->
  (forall a, a ∈ l -> StronglySorted RB (f a)) ->
  (forall a1 a2 b1 b2, RA a1 a2 -> b1 ∈ f a1 -> b2 ∈ f a2 -> RB b1 b2) ->
  StronglySorted RB (l ≫= f).
Proof.
  intros Hl Hf Hcross. induction Hl as [|a l Hl IH Ha]; csimpl.
  - constructor.
  - apply StronglySorted_app_2.
    + intros b1 b2 Hb1 Hb2. apply list_elem_of_bind in Hb2 as (a2 & Hb2 & Ha2).
      apply (Hcross a a2); [|done..]. rewrite Forall_forall in Ha. by apply Ha.
    + apply Hf. by left.
    + apply IH. intros a' Ha'. apply Hf. by right.
Qed.

Lemma StronglySorted_voxel_indices (vps : nat) :
  StronglySorted voxel_index_lt (voxel_indices vps).
Proof.
  unfold voxel_indices.
  apply (StronglySorted_bind Z.lt); [apply StronglySorted_range| |].
  - intros x _. apply (StronglySorted_bind Z.lt); [apply StronglySorted_range| |].
    + intros y _.
      apply (StronglySorted_bind Z.lt); [apply StronglySorted_range| |].
      * intros z _. repeat constructor.
      * intros z1 z2 b1 b2 Hz ->%list_elem_of_singleton
          ->%list_elem_of_singleton. simpl. lia.
    + intros y1 y2 b1 b2 Hy (z1 & ->%list_elem_of_singleton & _)%list_elem_of_bind
        (z2 & ->%list_elem_of_singleton & _)%list_elem_of_bind. simpl. lia.
  - intros x1 x2 b1 b2 Hx
      (y1 & (z1 & ->%list_elem_of_singleton & _)%list_elem_of_bind & _)%list_elem_of_bind
      (y2 & (z2 & ->%list_elem_of_singleton & _)%list_elem_of_bind & _)%list_elem_of_bind.
    simpl. lia.
Qed.

Lemma voxel_index_lt_irrefl (vi : VoxelIndex) : ~ voxel_index_lt vi vi.
Proof. destruct vi as [[x y] z]. simpl. lia. Qed.

Lemma StronglySorted_NoDup {A : Type} (R : relation A) (l : list A) :
  (forall a, ~ R a a) -> StronglySorted R l -> NoDup l.
Proof.
  intros Hirr. induction 1 as [|a l Hl IH Ha]; constructor; [|done].
  intros Hin. rewrite Forall_forall in Ha. by apply (Hirr a), Ha.
Qed.

Lemma NoDup_voxel_indices (vps : nat) : NoDup (voxel_indices vps).
Proof.
  apply (StronglySorted_NoDup voxel_index_lt).
  - apply voxel_index_lt_irrefl.
  - apply StronglySorted_voxel_indices.
Qed.

Lemma NoDup_allocated_blocks (m : TsdfMap.t) :
  NoDup (getAllAllocatedBlocks m).
Proof. apply NoDup_fst_map_to_list. Qed.

Lemma elem_of_voxel_refs (m : TsdfMap.t) (index : BlockIndex)
    (vi : VoxelIndex) :
  (index, vi) ∈ voxel_refs m
  <-> is_Some (TsdfMap.block_map m !! index)
      /\ in_block (getTsdfVoxelsPerSide m) vi.
Proof.
  unfold voxel_refs. rewrite list_elem_of_bind. split.
  - intros (i & (v & Heq & Hv)%list_elem_of_fmap & Hi). simplify_eq. split.
    + by apply allocated_blocks_lookup.
    + by apply elem_of_voxel_indices.
  - intros [Hi Hv]. exists index. split.
    + apply list_elem_of_fmap. exists vi. split; [done|].
      by apply elem_of_voxel_indices.
    + by apply allocated_blocks_lookup.
Qed.

Lemma NoDup_voxel_refs (m : TsdfMap.t) : NoDup (voxel_refs m).
Proof.
  unfold voxel_refs. apply NoDup_bind.
  - intros i1 i2 ref _ _ (v1 & -> & _)%list_elem_of_fmap
      (v2 & Heq & _)%list_elem_of_fmap. by simplify_eq.
  - intros i _. apply NoDup_fmap_2; [|apply NoDup_voxel_indices].
    intros v1 v2 Heq. by simplify_eq.
  - apply NoDup_allocated_blocks.
Qed.

Lemma StronglySorted_positions (pre l : list BlockIndex) :
  StronglySorted (block_before (pre ++ l)) l.
Proof.
  revert pre. induction l as [|a l IH]; intros pre; [constructor|].
  constructor.
  - replace (pre ++ a :: l) with ((pre ++ [a]) ++ l)
      by (by rewrite <- app_assoc). apply IH.
  - apply Forall_forall. intros b Hb.
    apply list_elem_of_lookup in Hb as [k Hk].
    exists (length pre), (length pre + S k)%nat. split; [lia|]. split.
    + by rewrite list_lookup_middle.
    + rewrite lookup_app_r by lia.
      replace (length pre + S k - length pre)%nat with (S k) by lia. done.
Qed.

Lemma StronglySorted_voxel_refs (m : TsdfMap.t) :
  StronglySorted (emitted_before (getAllAllocatedBlocks m)) (voxel_refs m).
Proof.
  unfold voxel_refs.
  apply (StronglySorted_bind (block_before (getAllAllocatedBlocks m))).
  - apply (StronglySorted_positions []).
  - intros index _.
    apply (StronglySorted_fmap _ voxel_index_lt);
      [|apply StronglySorted_voxel_indices].
    intros v1 v2 Hv. right. by split.
  - intros i1 i2 r1 r2 Hi (v1 & -> & _)%list_elem_of_fmap
      (v2 & -> & _)%list_elem_of_fmap. by left.
Qed.

(** ** Comparisons of scalars *)

Lemma SFeqb_not_SFltb (a b : spec_float) :
  SFeqb a b = true -> SFltb a b = false.
Proof. unfold SFeqb, SFltb. by destruct (SFcompare a b) as [[]|]. Qed.

Lemma unobserved_not_observed (voxel : TsdfVoxel.t) :
  unobserved voxel -> ~ observed voxel.
Proof.
  unfold unobserved, observed, SFeqb, SFltb.
  by destruct (TsdfVoxel.weight voxel) as [[]|[]| |[] ? ?].
Qed.

Lemma at_threshold_not_near_surface (thresh : float) (voxel : TsdfVoxel.t) :
  at_threshold thresh voxel -> ~ near_surface thresh voxel.
Proof.
  unfold at_threshold, near_surface. intros Heq Hlt.
  apply SFeqb_not_SFltb in Heq. congruence.
Qed.

(** The literal [0.75] is exactly three quarters: [3 * 2^51 * 2^-53]. *)
Lemma literal_three_quarters :
  IEEE.literal 75 100 = S754_finite false (3 * 2 ^ 51) (-53).
Proof. by vm_compute. Qed.

(** ** The loops compute what the spec describes *)

Lemma distance_voxel_step_emit (FloatingPoint : IEEE.format)
    (block : TsdfBlock.t) (vi : VoxelIndex) (pc : list PointXYZI.t) :
  distance_voxel_step FloatingPoint block vi pc
  = match spec_distance_point FloatingPoint block vi with
    | Some p => pc ++ [p]
    | None => pc
    end.
Proof.
  unfold distance_voxel_step, spec_distance_point, world_xyz,
    getTsdfVoxelByVoxelIndex.
  destruct (decide _) as [Hobs|Hobs]; unfold observed in Hobs.
  - by rewrite Hobs.
  - by apply not_true_is_false in Hobs as ->.
Qed.

Lemma surface_voxel_step_emit (FloatingPoint : IEEE.format) (thresh : float)
    (block : TsdfBlock.t) (vi : VoxelIndex) (pc : list PointXYZRGB.t) :
  surface_voxel_step FloatingPoint thresh block vi pc
  = match spec_surface_point FloatingPoint thresh block vi with
    | Some p => pc ++ [p]
    | None => pc
    end.
Proof.
  unfold surface_voxel_step, spec_surface_point, world_xyz,
    getTsdfVoxelByVoxelIndex.
  destruct (decide _) as [[Hobs Hnear]|Hno];
    unfold observed, near_surface in *.
  - by rewrite Hobs, Hnear.
  - destruct (SFltb (SFabs _) thresh) eqn:Hnear;
      destruct (SFltb (S754_zero false) _) eqn:Hobs; try done.
    by destruct Hno.
Qed.

Lemma allUpdatedTsdfVoxels_emitted (FloatingPoint : IEEE.format)
    (m : TsdfMap.t) :
  allUpdatedTsdfVoxels FloatingPoint m
  = Some (dense_emitted FloatingPoint m).*2.
Proof.
  unfold allUpdatedTsdfVoxels, dense_emitted.
  apply traversal_emitted, distance_voxel_step_emit.
Qed.

Lemma tsdfSurfacePoints_emitted (FloatingPoint : IEEE.format)
    (m : TsdfMap.t) :
  tsdfSurfacePoints FloatingPoint m
  = Some (surface_emitted FloatingPoint m).*2.
Proof.
  unfold tsdfSurfacePoints, surface_emitted.
  apply traversal_emitted, surface_voxel_step_emit.
Qed.

(** ** The emitted voxels *)

Section Emitted.

Context {PointT : Type}.
Context (emit : TsdfBlock.t -> VoxelIndex -> option PointT).

Lemma elem_of_emitted (m : TsdfMap.t) (ref : VoxelRef) (p : PointT) :
  (ref, p) ∈ emitted emit m
  <-> ref ∈ voxel_refs m
      /\ exists block, TsdfMap.block_map m !! ref.1 = Some block
                       /\ emit block ref.2 = Some p.
Proof.
  unfold emitted. rewrite list_elem_of_omap. split.
  - intros (ref' & Hin & Hemit).
    destruct (TsdfMap.block_map m !! ref'.1) as [block|] eqn:Hblock; [|done].
    simpl in Hemit. destruct (emit block ref'.2) as [p'|] eqn:Hp; [|done].
    simpl in Hemit. simplify_eq. eauto.
  - intros (Hin & block & Hblock & Hp). exists ref. split; [done|].
    rewrite Hblock. simpl. by rewrite Hp.
Qed.

Lemma elem_of_emitted_fst (m : TsdfMap.t) (ref : VoxelRef) :
  ref ∈ (emitted emit m).*1 <-> exists p, (ref, p) ∈ emitted emit m.
Proof.
  rewrite list_elem_of_fmap. split.
  - intros ([ref' p] & -> & Hin). by exists p.
  - intros [p Hin]. by exists (ref, p).
Qed.

Lemma emitted_fst_sublist (m : TsdfMap.t) :
  (emitted emit m).*1 `sublist_of` voxel_refs m.
Proof.
  unfold emitted. induction (voxel_refs m) as [|ref l IH]; [done|].
  cbn. destruct (TsdfMap.block_map m !! ref.1) as [block|]; cbn.
  - destruct (emit block ref.2); cbn; by constructor.
  - by constructor.
Qed.

Lemma NoDup_emitted_fst (m : TsdfMap.t) : NoDup (emitted emit m).*1.
Proof.
  apply (sublist_NoDup _ _ (NoDup_voxel_refs m)), emitted_fst_sublist.
Qed.

(** A voxel is emitted with at most one point. *)
Lemma emitted_functional (m : TsdfMap.t) (ref : VoxelRef) (p q : PointT) :
  (ref, p) ∈ emitted emit m -> (ref, q) ∈ emitted emit m -> p = q.
Proof.
  rewrite !elem_of_emitted.
  intros (_ & b1 & Hb1 & Hp) (_ & b2 & Hb2 & Hq). congruence.
Qed.

End Emitted.

Lemma sublist_StronglySorted {A : Type} (R : relation A) (l1 l2 : list A) :
  l1 `sublist_of` l2 -> StronglySorted R l2 -> StronglySorted R l1.
Proof.
  induction 1 as [|a l1 l2 Hsub IH|a l1 l2 Hsub IH]; intros Hsorted.
  - constructor.
  - apply StronglySorted_cons in Hsorted as [Ha Hl2].
    constructor; [by apply IH|].
    rewrite Forall_forall in *. intros b Hb. apply Ha.
    by apply (sublist_subseteq _ _ Hsub).
  - apply StronglySorted_cons in Hsorted as [_ Hl2]. by apply IH.
Qed.

Lemma emitted_exactly_once {PointT : Type}
    (emit : TsdfBlock.t -> VoxelIndex -> option PointT) (m : TsdfMap.t)
    (ref : VoxelRef) (p : PointT) :
  (ref, p) ∈ emitted emit m ->
  exists before after,
    emitted emit m = before ++ (ref, p) :: after
    /\ (ref ∉ before.*1) /\ (ref ∉ after.*1).
Proof.
  intros Hin. apply list_elem_of_split in Hin as (before & after & Heq).
  exists before, after. split; [done|].
  pose proof (NoDup_emitted_fst emit m) as Hnodup.
  rewrite Heq, fmap_app, fmap_cons in Hnodup. simpl in Hnodup.
  apply NoDup_app in Hnodup as (_ & Hbefore & Hafter).
  apply NoDup_cons in Hafter as [Hafter _]. split; [|done].
  intros Hin. apply (Hbefore ref Hin). by left.
Qed.

(** ** What the two publishers send *)

Section Publishers.

Context {StampedTransform Transformation : Type}.
Context (FloatingPoint : IEEE.format).

Abbreviation Node := (@VoxbloxNode StampedTransform).
Abbreviation Ev := (@Event Transformation).

Lemma publishTsdfSurfacePoints_run (node : Node) :
  publishTsdfSurfacePoints (Transformation := Transformation)
    FloatingPoint node
  = Some (tt, node,
          [Publish "sdf_pointcloud"
             (MsgXYZRGB (PointCloud.mk (world_frame_ node)
                (surface_emitted FloatingPoint (tsdf_map_ node)).*2))]).
Proof.
  unfold publishTsdfSurfacePoints, mbind, M_bind, get. simpl.
  by rewrite tsdfSurfacePoints_emitted.
Qed.

Lemma publishAllUpdatedTsdfVoxels_run (node : Node) :
  publishAllUpdatedTsdfVoxels (Transformation := Transformation)
    FloatingPoint node
  = Some (tt, node,
          [Publish "sdf_pointcloud"
             (MsgXYZI (PointCloud.mk (world_frame_ node)
                (dense_emitted FloatingPoint (tsdf_map_ node)).*2))]).
Proof.
  unfold publishAllUpdatedTsdfVoxels, mbind, M_bind, get. simpl.
  by rewrite allUpdatedTsdfVoxels_emitted.
Qed.

End Publishers.

(** ** Surface and dense-distance extraction *)

Section Extraction.

Context {StampedTransform Transformation : Type}.
Context (FloatingPoint : IEEE.format).

(** C1. For a voxel of an allocated block, [publishTsdfSurfacePoints] emits
    a point for the voxel if and only if its weight is positive and the
    absolute value of its distance is below the threshold, which is the
    product of the voxel size and 0.75 stored in a [float].  The comparison
    is strict: a voxel whose absolute distance equals the threshold is not
    emitted.  The point is emitted once, and carries the voxel's world
    coordinate and the r, g and b channels of its colour. *)
Theorem surface_extraction_emits_iff
    (node : VoxbloxNode (StampedTransform := StampedTransform))
    (index : BlockIndex) (block : TsdfBlock.t) (vi : VoxelIndex)
    (Hblock : TsdfMap.block_map (tsdf_map_ node) !! index = Some block)
    (Hin : in_block (getTsdfVoxelsPerSide (tsdf_map_ node)) vi) :
  let m := tsdf_map_ node in
  let voxel := TsdfBlock.voxels block vi in
  let thresh := surface_distance_thresh m in
  publishTsdfSurfacePoints (Transformation := Transformation)
    FloatingPoint node
  = Some (tt, node,
          [Publish "sdf_pointcloud"
             (MsgXYZRGB (PointCloud.mk (world_frame_ node)
                (surface_emitted FloatingPoint m).*2))])
  /\ thresh
     = to_float (IEEE.mul IEEE.binary64 (to_double (getTsdfVoxelSize m))
                          (S754_finite false (3 * 2 ^ 51) (-53)))
  /\ ((index, vi) ∈ (surface_emitted FloatingPoint m).*1
      <-> observed voxel /\ near_surface thresh voxel)
  /\ (at_threshold thresh voxel ->
      (index, vi) ∉ (surface_emitted FloatingPoint m).*1)
  /\ (forall p, (index, vi, p) ∈ surface_emitted FloatingPoint m ->
      (exists before after,
         surface_emitted FloatingPoint m = before ++ (index, vi, p) :: after
         /\ ((index, vi) ∉ before.*1) /\ ((index, vi) ∉ after.*1))
      /\ (PointXYZRGB.x p, PointXYZRGB.y p, PointXYZRGB.z p)
         = world_xyz FloatingPoint block vi
      /\ PointXYZRGB.r p = Color.r (TsdfVoxel.color voxel)
      /\ PointXYZRGB.g p = Color.g (TsdfVoxel.color voxel)
      /\ PointXYZRGB.b p = Color.b (TsdfVoxel.color voxel)).
Proof.
  intros m voxel thresh.
  assert (Hiff : (index, vi) ∈ (surface_emitted FloatingPoint m).*1
                 <-> observed voxel /\ near_surface thresh voxel).
  { subst m. unfold surface_emitted. rewrite elem_of_emitted_fst. split.
    - intros [p (_ & block' & Hblock' & Hp)%elem_of_emitted].
      simpl in Hblock', Hp. replace block' with block in Hp by congruence.
      unfold spec_surface_point in Hp.
      destruct (world_xyz _ _ _) as [[x y] z].
      by destruct (decide _) as [Hyes|].
    - intros Hyes.
      destruct (world_xyz FloatingPoint block vi) as [[x y] z] eqn:Hxyz.
      eexists. apply elem_of_emitted. split.
      + apply elem_of_voxel_refs. split; [by exists block|done].
      + exists block. split; [done|]. simpl. unfold spec_surface_point.
        rewrite Hxyz. by rewrite decide_True. }
  split; [apply publishTsdfSurfacePoints_run|].
  split; [unfold thresh, surface_distance_thresh;
          by rewrite literal_three_quarters|].
  split; [done|]. split.
  - intros Hat [_ Hnear]%Hiff. by apply (at_threshold_not_near_surface _ _ Hat).
  - intros p Hp. split; [by apply emitted_exactly_once|]. subst m.
    apply elem_of_emitted in Hp as (_ & block' & Hblock' & Hp).
    simpl in Hblock', Hp. replace block' with block in Hp by congruence.
    unfold spec_surface_point in Hp.
    destruct (world_xyz _ _ _) as [[x y] z].
    destruct (decide _); [|done]. by simplify_eq.
Qed.

(** C2. For a voxel of positive weight in an allocated block,
    [publishAllUpdatedTsdfVoxels] emits exactly one point; its coordinate is
    block origin plus voxel index times voxel size, taken componentwise and
    stored in [float]s, and its intensity is the voxel's stored distance.  A
    voxel of weight zero is emitted by neither extraction. *)
Theorem dense_extraction_emits_observed
    (node : VoxbloxNode (StampedTransform := StampedTransform))
    (index : BlockIndex) (block : TsdfBlock.t) (ix iy iz : Z)
    (Hblock : TsdfMap.block_map (tsdf_map_ node) !! index = Some block)
    (Hin : in_block (getTsdfVoxelsPerSide (tsdf_map_ node)) (ix, iy, iz)) :
  let m := tsdf_map_ node in
  let vi : VoxelIndex := (ix, iy, iz) in
  let voxel := TsdfBlock.voxels block vi in
  let along o i :=
    to_float (IEEE.add FloatingPoint o
                (IEEE.mul FloatingPoint (IEEE.of_Z FloatingPoint i)
                          (TsdfBlock.voxel_size block))) in
  let point :=
    PointXYZI.mk (along (Point.x (TsdfBlock.origin block)) ix)
                 (along (Point.y (TsdfBlock.origin block)) iy)
                 (along (Point.z (TsdfBlock.origin block)) iz)
                 (TsdfVoxel.distance voxel) in
  publishAllUpdatedTsdfVoxels (Transformation := Transformation)
    FloatingPoint node
  = Some (tt, node,
          [Publish "sdf_pointcloud"
             (MsgXYZI (PointCloud.mk (world_frame_ node)
                (dense_emitted FloatingPoint m).*2))])
  /\ publishTsdfSurfacePoints (Transformation := Transformation)
       FloatingPoint node
     = Some (tt, node,
             [Publish "sdf_pointcloud"
                (MsgXYZRGB (PointCloud.mk (world_frame_ node)
                   (surface_emitted FloatingPoint m).*2))])
  /\ (observed voxel ->
      exists before after,
        dense_emitted FloatingPoint m = before ++ (index, vi, point) :: after
        /\ ((index, vi) ∉ before.*1) /\ ((index, vi) ∉ after.*1))
  /\ (unobserved voxel ->
      ((index, vi) ∉ (dense_emitted FloatingPoint m).*1)
      /\ ((index, vi) ∉ (surface_emitted FloatingPoint m).*1)).
Proof.
  intros m vi voxel along point. subst m.
  split; [apply publishAllUpdatedTsdfVoxels_run|].
  split; [apply publishTsdfSurfacePoints_run|]. split.
  - intros Hobs. apply emitted_exactly_once, elem_of_emitted. split.
    + apply elem_of_voxel_refs. split; [by exists block|done].
    + exists block. split; [done|]. simpl.
      unfold spec_distance_point, world_xyz. simpl.
      by rewrite decide_True.
  - intros Hzero. apply unobserved_not_observed in Hzero.
    unfold dense_emitted, surface_emitted. rewrite !elem_of_emitted_fst.
    split; intros [p (_ & block' & Hblock' & Hp)%elem_of_emitted];
      simpl in Hblock', Hp; replace block' with block in Hp by congruence.
    + unfold spec_distance_point in Hp.
      destruct (world_xyz _ _ _) as [[x y] z].
      by destruct (decide _).
    + unfold spec_surface_point in Hp.
      destruct (world_xyz _ _ _) as [[x y] z].
      by destruct (decide _) as [[? ?]|].
Qed.

(** C3, as amended.  The voxels emitted by surface extraction are among the
    voxels emitted by dense-distance extraction, and each of them has the
    absolute value of its distance below the threshold.  The inclusion need
    not be strict. *)
Theorem surface_subset_of_dense (m : TsdfMap.t) :
  tsdfSurfacePoints FloatingPoint m
  = Some (surface_emitted FloatingPoint m).*2
  /\ allUpdatedTsdfVoxels FloatingPoint m
     = Some (dense_emitted FloatingPoint m).*2
  /\ (surface_emitted FloatingPoint m).*1
     ⊆ (dense_emitted FloatingPoint m).*1
  /\ (forall index vi,
        (index, vi) ∈ (surface_emitted FloatingPoint m).*1 ->
        exists block,
          TsdfMap.block_map m !! index = Some block
          /\ near_surface (surface_distance_thresh m)
               (TsdfBlock.voxels block vi)).
Proof.
  split; [apply tsdfSurfacePoints_emitted|].
  split; [apply allUpdatedTsdfVoxels_emitted|].
  assert (Hsurface : forall index vi,
            (index, vi) ∈ (surface_emitted FloatingPoint m).*1 ->
            (index, vi) ∈ voxel_refs m
            /\ exists block,
                 TsdfMap.block_map m !! index = Some block
                 /\ observed (TsdfBlock.voxels block vi)
                 /\ near_surface (surface_distance_thresh m)
                      (TsdfBlock.voxels block vi)).
  { intros index vi [p (Href & block & Hblock & Hp)%elem_of_emitted]%elem_of_emitted_fst.
    split; [done|]. exists block. split; [done|].
    simpl in Hp. unfold spec_surface_point in Hp.
    destruct (world_xyz _ _ _) as [[x y] z].
    by destruct (decide _) as [[? ?]|]. }
  split.
  - intros [index vi] (Href & block & Hblock & Hobs & _)%Hsurface.
    destruct (world_xyz FloatingPoint block vi) as [[x y] z] eqn:Hxyz.
    unfold dense_emitted. apply elem_of_emitted_fst. eexists.
    apply elem_of_emitted. split; [done|]. exists block. split; [done|].
    simpl. unfold spec_distance_point. rewrite Hxyz. by rewrite decide_True.
  - intros index vi (_ & block & Hblock & _ & Hnear)%Hsurface. eauto.
Qed.

(** C6. The output of either extraction follows the enumeration order of
    the blocks and, within a block, the order of the voxel indices in the
    loop nest; it is a function of the store. *)
Theorem extraction_order (m : TsdfMap.t) :
  tsdfSurfacePoints FloatingPoint m
  = Some (surface_emitted FloatingPoint m).*2
  /\ allUpdatedTsdfVoxels FloatingPoint m
     = Some (dense_emitted FloatingPoint m).*2
  /\ StronglySorted (emitted_before (getAllAllocatedBlocks m))
       (surface_emitted FloatingPoint m).*1
  /\ StronglySorted (emitted_before (getAllAllocatedBlocks m))
       (dense_emitted FloatingPoint m).*1.
Proof.
  split; [apply tsdfSurfacePoints_emitted|].
  split; [apply allUpdatedTsdfVoxels_emitted|].
  split; (eapply sublist_StronglySorted;
          [apply emitted_fst_sublist|apply StronglySorted_voxel_refs]).
Qed.

End Extraction.

(** ** The scenarios of the spec, evaluated *)

(** Scenario A: an empty store gives two empty clouds. *)
Example scenario_A_empty :
  tsdfSurfacePoints IEEE.binary32 scenario_A = Some []
  /\ allUpdatedTsdfVoxels IEEE.binary32 scenario_A = Some [].
Proof. by vm_compute. Qed.

(** Scenario B: one voxel at distance 0.01 is in both clouds, at the
    coordinate (0.02, 0.04, 0.06). *)
Example scenario_B_one_point :
  tsdfSurfacePoints IEEE.binary32 scenario_B
  = Some [PointXYZRGB.mk (S754_finite false 10737418 (-29))
            (S754_finite false 10737418 (-28))
            (S754_finite false 16106127 (-28)) 255 0 0 255]
  /\ allUpdatedTsdfVoxels IEEE.binary32 scenario_B
     = Some [PointXYZI.mk (S754_finite false 10737418 (-29))
               (S754_finite false 10737418 (-28))
               (S754_finite false 16106127 (-28))
               (to_float (IEEE.literal 1 100))].
Proof. by vm_compute. Qed.

(** Scenario C: at distance 0.02 the voxel is in the dense cloud only. *)
Example scenario_C_dense_only :
  tsdfSurfacePoints IEEE.binary32 scenario_C = Some []
  /\ (dense_emitted IEEE.binary32 scenario_C).*1 = [((0, 0, 0), (1, 2, 3))].
Proof. by vm_compute. Qed.

(** Boundary: at a distance equal to the threshold the voxel is not a
    surface point. *)
Example scenario_boundary_excluded :
  surface_distance_thresh scenario_boundary
  = to_float (IEEE.literal 15 1000)
  /\ tsdfSurfacePoints IEEE.binary32 scenario_boundary = Some []
  /\ (dense_emitted IEEE.binary32 scenario_boundary).*1
     = [((0, 0, 0), (1, 2, 3))].
Proof. by vm_compute. Qed.

(** ** Instances at the scenarios *)

Lemma surface_extraction_emits_iff_witness :
  TsdfMap.block_map scenario_B !! (0, 0, 0)
  = Some (scenario_block (to_float (IEEE.literal 1 100)))
  /\ in_block (getTsdfVoxelsPerSide scenario_B) (1, 2, 3)
  /\ ((0, 0, 0), (1, 2, 3)) ∈ (surface_emitted IEEE.binary32 scenario_B).*1
  /\ ~ (((0, 0, 0), (1, 2, 3))
        ∈ (surface_emitted IEEE.binary32 scenario_boundary).*1).
Proof.
  assert (Hblock : TsdfMap.block_map scenario_B !! (0, 0, 0)
                   = Some (scenario_block (to_float (IEEE.literal 1 100))))
    by (by vm_compute).
  assert (Hin : in_block (getTsdfVoxelsPerSide scenario_B) (1, 2, 3))
    by (cbv [in_block getTsdfVoxelsPerSide scenario_B scenario_store
             TsdfMap.voxels_per_side]; lia).
  split; [exact Hblock|]. split; [exact Hin|]. split.
  - destruct (surface_extraction_emits_iff (Transformation := unit)
                IEEE.binary32 (scenario_node tf_static scenario_B)
                (0, 0, 0) _ (1, 2, 3) Hblock Hin) as (_ & _ & Hiff & _).
    apply Hiff. by vm_compute.
  - assert (Hblock' : TsdfMap.block_map scenario_boundary !! (0, 0, 0)
                      = Some (scenario_block
                                (surface_distance_thresh scenario_A)))
      by (by vm_compute).
    destruct (surface_extraction_emits_iff (Transformation := unit)
                IEEE.binary32 (scenario_node tf_static scenario_boundary)
                (0, 0, 0) _ (1, 2, 3) Hblock' Hin) as (_ & _ & _ & Hat & _).
    apply Hat. by vm_compute.
Defined.

Lemma dense_extraction_emits_observed_witness :
  TsdfMap.block_map scenario_C !! (0, 0, 0)
  = Some (scenario_block (to_float (IEEE.literal 2 100)))
  /\ in_block (getTsdfVoxelsPerSide scenario_C) (1, 2, 3)
  /\ in_block (getTsdfVoxelsPerSide scenario_C) (0, 0, 0)
  /\ (exists before after,
        dense_emitted IEEE.binary32 scenario_C
        = before
          ++ ((0, 0, 0), (1, 2, 3),
              PointXYZI.mk (S754_finite false 10737418 (-29))
                (S754_finite false 10737418 (-28))
                (S754_finite false 16106127 (-28))
                (to_float (IEEE.literal 2 100))) :: after
        /\ (((0, 0, 0), (1, 2, 3)) ∉ before.*1)
        /\ (((0, 0, 0), (1, 2, 3)) ∉ after.*1))
  /\ (((0, 0, 0), (0, 0, 0)) ∉ (dense_emitted IEEE.binary32 scenario_C).*1)
  /\ (((0, 0, 0), (0, 0, 0))
      ∉ (surface_emitted IEEE.binary32 scenario_C).*1).
Proof.
  assert (Hblock : TsdfMap.block_map scenario_C !! (0, 0, 0)
                   = Some (scenario_block (to_float (IEEE.literal 2 100))))
    by (by vm_compute).
  assert (Hin : in_block (getTsdfVoxelsPerSide scenario_C) (1, 2, 3))
    by (cbv [in_block getTsdfVoxelsPerSide scenario_C scenario_store
             TsdfMap.voxels_per_side]; lia).
  assert (Hin0 : in_block (getTsdfVoxelsPerSide scenario_C) (0, 0, 0))
    by (cbv [in_block getTsdfVoxelsPerSide scenario_C scenario_store
             TsdfMap.voxels_per_side]; lia).
  split; [exact Hblock|]. split; [exact Hin|]. split; [exact Hin0|].
  split.
  - destruct (dense_extraction_emits_observed (Transformation := unit)
                IEEE.binary32 (scenario_node tf_static scenario_C)
                (0, 0, 0) _ 1 2 3 Hblock Hin) as (_ & _ & Hobs & _).
    apply Hobs. by vm_compute.
  - destruct (dense_extraction_emits_observed (Transformation := unit)
                IEEE.binary32 (scenario_node tf_static scenario_C)
                (0, 0, 0) _ 0 0 0 Hblock Hin0) as (_ & _ & _ & Hzero).
    apply Hzero. by vm_compute.
Defined.

(** C3 as stated fails in scenario B: both extractions emit the same single
    voxel, so the surface set is not a strict subset of the dense set. *)
Lemma surface_subset_not_strict :
  (surface_emitted IEEE.binary32 scenario_B).*1 = [((0, 0, 0), (1, 2, 3))]
  /\ (dense_emitted IEEE.binary32 scenario_B).*1 = [((0, 0, 0), (1, 2, 3))]
  /\ ~ ((surface_emitted IEEE.binary32 scenario_B).*1
        ⊂ (dense_emitted IEEE.binary32 scenario_B).*1).
Proof.
  assert (Hs : (surface_emitted IEEE.binary32 scenario_B).*1
               = [((0, 0, 0), (1, 2, 3))]) by (by vm_compute).
  assert (Hd : (dense_emitted IEEE.binary32 scenario_B).*1
               = [((0, 0, 0), (1, 2, 3))]) by (by vm_compute).
  split; [done|]. split; [done|]. rewrite Hs, Hd. by intros [_ []].
Qed.

(** ** Rounding never produces a NaN *)







(** ** The observation callback *)

Section Callback.

Context {StampedTransform Transformation : Type}.
Context (transformTFToKindr : StampedTransform -> Transformation).
Context (fromROSMsg : PointCloud2.t -> PointCloud.t PointXYZRGB.t).
Context (removeNaNFromPointCloud :
           PointCloud.t PointXYZRGB.t -> PointCloud.t PointXYZRGB.t).
Context (integratePointCloud :
           Transformation -> list Point.t -> list Color.t ->
           TsdfMap.t -> TsdfMap.t).
Context (FloatingPoint : IEEE.format).

#[local] Existing Instance M_ret.
#[local] Existing Instance M_bind.

#[local] Abbreviation Node := (VoxbloxNode (StampedTransform := StampedTransform)).
#[local] Abbreviation Ev := (Event (Transformation := Transformation)).
#[local] Abbreviation callback :=
  (insertPointcloudWithTf transformTFToKindr fromROSMsg
     removeNaNFromPointCloud integratePointCloud FloatingPoint).
#[local] Abbreviation field_log :=
  (fun field : PointField.t =>
     Log (Transformation := Transformation) INFO
       ("Got field named: " +:+ PointField.name field)).

Ltac run := unfold mbind, M_bind, mret, M_ret, get, put, emit; simpl.

(** [lookupTransform] only reads the node and only logs. *)
Lemma lookupTransform_run (from_frame to_frame : string) (timestamp : ros_Time)
    (node : Node) :
  exists found log,
    lookupTransform transformTFToKindr from_frame to_frame timestamp node
    = Some (found, node, log)
    /\ integrations log = [] /\ published log = []
    /\ found
       = match tf_lookupTransform (tf_listener_ node) to_frame from_frame
                 (if tf_canTransform (tf_listener_ node) to_frame from_frame
                       timestamp
                  then timestamp else 0) with
         | inl _ => None
         | inr tf_transform => Some (transformTFToKindr tf_transform)
         end.
Proof.
  unfold lookupTransform. run.
  destruct (tf_canTransform _ _ _ _); simpl;
    destruct (tf_lookupTransform _ _ _ _); simpl; eauto 10.
Qed.

Lemma lookupTransform_inv (from_frame to_frame : string) (timestamp : ros_Time)
    (node node' : Node) (found : option Transformation) (log : list Ev) :
  lookupTransform transformTFToKindr from_frame to_frame timestamp node
  = Some (found, node', log) ->
  node' = node /\ integrations log = [] /\ published log = [].
Proof.
  destruct (lookupTransform_run from_frame to_frame timestamp node)
    as (found0 & log0 & Hrun & ? & ? & _).
  rewrite Hrun. intros. by simplify_eq.
Qed.

Lemma with_fields_fields (msg : PointCloud2.t) :
  PointCloud2.with_fields msg (PointCloud2.fields msg) = msg.
Proof. by destruct msg. Qed.

(** The loop over the fields rewrites them one by one, from the left. *)
Lemma for_fields_fix (msg : PointCloud2.t) (done todo : list PointField.t)
    (node : Node) :
  for_fields (seq (length done) (length todo)) fix_field
    (PointCloud2.with_fields msg ((rgb_field_as_float32 <$> done) ++ todo))
    node
  = Some (PointCloud2.with_fields msg
            (rgb_field_as_float32 <$> (done ++ todo)),
          node, field_log <$> todo).
Proof.
  revert done. induction todo as [|field todo IH]; intros done.
  - simpl. run. by rewrite !app_nil_r.
  - cbn [length seq for_fields]. unfold mbind at 1, M_bind at 1.
    unfold fix_field at 1. cbn [PointCloud2.fields PointCloud2.with_fields].
    assert (Hd : length (rgb_field_as_float32 <$> done) = length done)
      by apply length_fmap.
    assert (Hfield : ((rgb_field_as_float32 <$> done) ++ field :: todo)
                     !! length done = Some field)
      by (by apply list_lookup_middle).
    rewrite Hfield. run.
    specialize (IH (done ++ [field])).
    rewrite length_app, Nat.add_1_r in IH. simpl in IH.
    rewrite fmap_app, <- !app_assoc in IH. simpl in IH.
    replace (if String.eqb (PointField.name field) "rgb" then _ else _)
      with (PointCloud2.with_fields msg
              ((rgb_field_as_float32 <$> done)
               ++ rgb_field_as_float32 field :: todo)).
    + by rewrite IH.
    + unfold rgb_field_as_float32 at 2.
      destruct (String.eqb _ _); [|done]. simpl. f_equal.
      rewrite insert_app_r_alt by lia. rewrite Hd, Nat.sub_diag. done.
Qed.

Lemma for_fields_all (msg : PointCloud2.t) (node : Node) :
  for_fields (seq 0 (length (PointCloud2.fields msg))) fix_field msg node
  = Some (rgb_as_float32 msg, node, field_log <$> PointCloud2.fields msg).
Proof.
  pose proof (for_fields_fix msg [] (PointCloud2.fields msg) node) as H.
  simpl in H. by rewrite with_fields_fields in H.
Qed.

(** The loop over the filtered cloud fills both sequences in step. *)
Lemma push_point_foldl (cloud : list PointXYZRGB.t) (n j : nat)
    (acc : list Point.t * list Color.t) :
  (j + n <= length cloud)%nat ->
  foldl (fun s i => push_point FloatingPoint cloud (Z.of_nat i) s) acc
        (seq j n)
  = (acc.1 ++ observation_points FloatingPoint (take n (drop j cloud)),
     acc.2 ++ observation_colors (take n (drop j cloud))).
Proof.
  revert j acc. induction n as [|n IH]; intros j [points_C colors] Hlen.
  - simpl. by rewrite !app_nil_r.
  - destruct (lookup_lt_is_Some_2 cloud j) as [p Hp]; [lia|].
    cbn [seq foldl]. unfold push_point at 2. rewrite Nat2Z.id, Hp.
    rewrite IH by lia. rewrite (drop_S _ _ _ Hp). simpl.
    by rewrite <- !app_assoc.
Qed.

Lemma push_point_all (cloud : list PointXYZRGB.t) :
  for_range (length cloud) (push_point FloatingPoint cloud) ([], [])
  = (observation_points FloatingPoint cloud, observation_colors cloud).
Proof.
  unfold for_range. rewrite push_point_foldl by lia.
  by rewrite drop_0, firstn_all.
Qed.

(** The callback when the pose lookup succeeds. *)
Lemma callback_found (msg : PointCloud2.t) (node : Node)
    (T_G_C : Transformation) (log : list Ev) :
  lookupTransform transformTFToKindr (PointCloud2.frame_id msg)
    (world_frame_ node) (PointCloud2.stamp msg) node
  = Some (Some T_G_C, node, log) ->
  let msg' := rgb_as_float32 msg in
  let cloud :=
    PointCloud.points (removeNaNFromPointCloud (fromROSMsg msg')) in
  let points_C := observation_points FloatingPoint cloud in
  let colors := observation_colors cloud in
  let store := integratePointCloud T_G_C points_C colors (tsdf_map_ node) in
  callback msg node
  = Some (msg',
          mkVoxbloxNode (world_frame_ node) (tf_listener_ node) store,
          log ++ (field_log <$> PointCloud2.fields msg)
          ++ [Log INFO "Integrating a pointcloud with %d points.";
              Integrate T_G_C points_C colors;
              Log INFO "Finished integrating, have %d blocks.";
              Publish "sdf_pointcloud"
                (MsgXYZRGB (PointCloud.mk (world_frame_ node)
                   (surface_emitted FloatingPoint store).*2))]).
Proof.
  intros Hlookup msg' cloud points_C colors store.
  unfold insertPointcloudWithTf. unfold mbind at 1, M_bind at 1, get at 1.
  unfold mbind at 1, M_bind at 1. rewrite Hlookup.
  unfold mbind at 1, M_bind at 1. rewrite for_fields_all.
  fold msg'. fold cloud. rewrite push_point_all.
  fold points_C. fold colors.
  unfold integrate. run. by rewrite publishTsdfSurfacePoints_run.
Qed.

(** The callback when the pose lookup fails. *)
Lemma callback_not_found (msg : PointCloud2.t) (node : Node) (log : list Ev) :
  lookupTransform transformTFToKindr (PointCloud2.frame_id msg)
    (world_frame_ node) (PointCloud2.stamp msg) node
  = Some (None, node, log) ->
  callback msg node = Some (msg, node, log).
Proof.
  intros Hlookup.
  unfold insertPointcloudWithTf. unfold mbind at 1, M_bind at 1, get at 1.
  unfold mbind at 1, M_bind at 1. rewrite Hlookup. run.
  by rewrite app_nil_r.
Qed.

Lemma integrations_field_log (l : list PointField.t) :
  integrations (Transformation := Transformation) (field_log <$> l) = [].
Proof. by induction l. Qed.

Lemma published_field_log (l : list PointField.t) :
  published (Transformation := Transformation) (field_log <$> l) = [].
Proof. by induction l. Qed.

(** What the integrator and the publisher see of a successful callback. *)
Lemma callback_found_effects (msg : PointCloud2.t) (node : Node)
    (T_G_C : Transformation) (log : list Ev) :
  lookupTransform transformTFToKindr (PointCloud2.frame_id msg)
    (world_frame_ node) (PointCloud2.stamp msg) node
  = Some (Some T_G_C, node, log) ->
  let cloud :=
    PointCloud.points
      (removeNaNFromPointCloud (fromROSMsg (rgb_as_float32 msg))) in
  let points_C := observation_points FloatingPoint cloud in
  let colors := observation_colors cloud in
  let store := integratePointCloud T_G_C points_C colors (tsdf_map_ node) in
  exists events,
    callback msg node
    = Some (rgb_as_float32 msg,
            mkVoxbloxNode (world_frame_ node) (tf_listener_ node) store,
            events)
    /\ integrations events = [(T_G_C, points_C, colors)]
    /\ published events
       = [MsgXYZRGB (PointCloud.mk (world_frame_ node)
                       (surface_emitted FloatingPoint store).*2)].
Proof.
  intros Hlookup cloud points_C colors store.
  pose proof (callback_found msg node T_G_C log Hlookup) as Hrun.
  apply lookupTransform_inv in Hlookup as (_ & Hint & Hpub).
  eexists. split; [exact Hrun|]. split.
  - unfold integrations in *. rewrite !omap_app, Hint.
    fold (integrations (Transformation := Transformation)
            (field_log <$> PointCloud2.fields msg)).
    by rewrite integrations_field_log.
  - unfold published in *. rewrite !omap_app, Hpub.
    fold (published (Transformation := Transformation)
            (field_log <$> PointCloud2.fields msg)).
    by rewrite published_field_log.
Qed.

(** C4, as amended.  When the pose lookup succeeds, the callback makes one
    call to the integrator and then one publication: the surface cloud of
    the store as the integrator left it, tagged with the world frame.  The
    dense distance field is not published. *)
Theorem observation_integrated_then_surface_published
    (msg : PointCloud2.t) (node : Node) (T_G_C : Transformation)
    (log : list Ev)
    (Hlookup :
       lookupTransform transformTFToKindr (PointCloud2.frame_id msg)
         (world_frame_ node) (PointCloud2.stamp msg) node
       = Some (Some T_G_C, node, log)) :
  let cloud :=
    PointCloud.points
      (removeNaNFromPointCloud (fromROSMsg (rgb_as_float32 msg))) in
  let points_C := observation_points FloatingPoint cloud in
  let colors := observation_colors cloud in
  let store := integratePointCloud T_G_C points_C colors (tsdf_map_ node) in
  let surface :=
    MsgXYZRGB (PointCloud.mk (world_frame_ node)
                 (surface_emitted FloatingPoint store).*2) in
  exists msg' node' events,
    callback msg node = Some (msg', node', events)
    /\ tsdf_map_ node' = store
    /\ integrations events = [(T_G_C, points_C, colors)]
    /\ published events = [surface]
    /\ tsdfSurfacePoints FloatingPoint store
       = Some (surface_emitted FloatingPoint store).*2
    /\ exists before between,
         events = before ++ Integrate T_G_C points_C colors
                           :: between ++ [Publish "sdf_pointcloud" surface]
         /\ published before = [] /\ published between = [].
Proof.
  intros cloud points_C colors store surface.
  destruct (callback_found_effects msg node T_G_C log Hlookup)
    as (events & Hrun & Hint & Hpub).
  pose proof (callback_found msg node T_G_C log Hlookup) as Hrun'.
  simpl in Hrun'. rewrite Hrun in Hrun'. injection Hrun' as Hevents.
  apply lookupTransform_inv in Hlookup as (_ & _ & Hlog).
  eexists _, _, events. split; [exact Hrun|]. split; [done|].
  split; [done|]. split; [done|].
  split; [apply tsdfSurfacePoints_emitted|].
  exists (log ++ (field_log <$> PointCloud2.fields msg)
          ++ [Log INFO "Integrating a pointcloud with %d points."]),
         [Log INFO "Finished integrating, have %d blocks."].
  split; [by rewrite Hevents, <- !app_assoc|]. split; [|done].
  unfold published in *. rewrite !omap_app, Hlog.
  fold (published (Transformation := Transformation)
          (field_log <$> PointCloud2.fields msg)).
  by rewrite published_field_log.
Qed.

(** C5. When the pose lookup fails the observation is dropped: the callback
    returns normally, leaves the message and the node (so the store) as
    they were, asks nothing of the integrator, publishes nothing, and the
    queue goes on with the next observation. *)
Theorem failed_lookup_drops_observation
    (node : Node) (arrival : Arrival) (rest : list Arrival) (log : list Ev) :
  let node1 :=
    mkVoxbloxNode (world_frame_ node) (tf_state arrival) (tsdf_map_ node) in
  let msg := cloud_msg arrival in
  lookupTransform transformTFToKindr (PointCloud2.frame_id msg)
    (world_frame_ node1) (PointCloud2.stamp msg) node1
  = Some (None, node1, log) ->
  callback msg node1 = Some (msg, node1, log)
  /\ tsdf_map_ node1 = tsdf_map_ node
  /\ integrations log = [] /\ published log = []
  /\ spin transformTFToKindr fromROSMsg removeNaNFromPointCloud
       integratePointCloud FloatingPoint (arrival :: rest) node
     = (fun '(msgs, node2, events) => (msg :: msgs, node2, log ++ events))
         <$> spin transformTFToKindr fromROSMsg removeNaNFromPointCloud
               integratePointCloud FloatingPoint rest node1.
Proof.
  intros node1 msg Hlookup.
  pose proof (callback_not_found msg node1 log Hlookup) as Hrun.
  apply lookupTransform_inv in Hlookup as (_ & Hint & Hpub).
  split; [done|]. split; [done|]. split; [done|]. split; [done|].
  cbn [spin]. unfold mbind at 1, M_bind at 1, get at 1.
  unfold mbind at 1, M_bind at 1, put at 1.
  unfold mbind at 1, M_bind at 1. fold node1. fold msg. rewrite Hrun.
  unfold mbind, M_bind, mret, M_ret.
  destruct (spin _ _ _ _ _ rest node1) as [[[msgs node2] events]|];
    simpl; [|done].
  by rewrite app_nil_r.
Qed.

(** C7. Either publisher returns the node it was given, hence the store,
    unchanged; run twice in a row it publishes the same cloud twice. *)
Theorem extraction_idempotent (node : Node) :
  let surface :=
    Publish (Transformation := Transformation) "sdf_pointcloud"
      (MsgXYZRGB (PointCloud.mk (world_frame_ node)
         (surface_emitted FloatingPoint (tsdf_map_ node)).*2)) in
  let dense :=
    Publish (Transformation := Transformation) "sdf_pointcloud"
      (MsgXYZI (PointCloud.mk (world_frame_ node)
         (dense_emitted FloatingPoint (tsdf_map_ node)).*2)) in
  publishTsdfSurfacePoints FloatingPoint node = Some (tt, node, [surface])
  /\ (_ ← publishTsdfSurfacePoints FloatingPoint;
      publishTsdfSurfacePoints FloatingPoint) node
     = Some (tt, node, [surface; surface])
  /\ publishAllUpdatedTsdfVoxels FloatingPoint node = Some (tt, node, [dense])
  /\ (_ ← publishAllUpdatedTsdfVoxels FloatingPoint;
      publishAllUpdatedTsdfVoxels FloatingPoint) node
     = Some (tt, node, [dense; dense]).
Proof.
  intros surface dense.
  split; [apply publishTsdfSurfacePoints_run|]. split.
  - unfold mbind, M_bind. by rewrite !publishTsdfSurfacePoints_run.
  - split; [apply publishAllUpdatedTsdfVoxels_run|].
    unfold mbind, M_bind. by rewrite !publishAllUpdatedTsdfVoxels_run.
Qed.


(** C9. When the pose lookup succeeds, the callback leaves the message
    changed: every field named [rgb] is declared FLOAT32, nothing else is
    touched, and it is this changed message that is converted and
    filtered to make the integrator's input. *)
Theorem rgb_fields_become_float32
    (msg : PointCloud2.t) (node : Node) (T_G_C : Transformation)
    (log : list Ev)
    (Hlookup :
       lookupTransform transformTFToKindr (PointCloud2.frame_id msg)
         (world_frame_ node) (PointCloud2.stamp msg) node
       = Some (Some T_G_C, node, log)) :
  exists msg' node' events,
    callback msg node = Some (msg', node', events)
    /\ length (PointCloud2.fields msg') = length (PointCloud2.fields msg)
    /\ (forall d field,
          PointCloud2.fields msg !! d = Some field ->
          PointCloud2.fields msg' !! d
          = Some (if String.eqb (PointField.name field) "rgb"
                  then PointField.mk (PointField.name field)
                         (PointField.offset field) PointField.FLOAT32
                         (PointField.count field)
                  else field))
    /\ PointCloud2.frame_id msg' = PointCloud2.frame_id msg
    /\ PointCloud2.stamp msg' = PointCloud2.stamp msg
    /\ PointCloud2.data msg' = PointCloud2.data msg
    /\ PointCloud2.is_dense msg' = PointCloud2.is_dense msg
    /\ integrations events
       = [(T_G_C,
           observation_points FloatingPoint
             (PointCloud.points
                (removeNaNFromPointCloud (fromROSMsg msg'))),
           observation_colors
             (PointCloud.points
                (removeNaNFromPointCloud (fromROSMsg msg'))))].
Proof.
  destruct (callback_found_effects msg node T_G_C log Hlookup)
    as (events & Hrun & Hint1 & _).
  eexists _, _, events. split; [exact Hrun|].
  split; [unfold rgb_as_float32; simpl; apply length_fmap|].
  split; [|by repeat split].
  intros d field Hd. unfold rgb_as_float32. simpl.
  by rewrite list_lookup_fmap, Hd.
Qed.

(** C10. Constructed with no observation queued, the node has processed
    and integrated nothing, its store has no block, and it has published
    exactly one cloud: the empty surface cloud in the world frame. *)
Theorem constructor_publishes_empty_surface
    (tf : TransformListener (StampedTransform := StampedTransform)) :
  let store :=
    TsdfMap_new
      (TsdfMap.mkConfig (IEEE.convert FloatingPoint (IEEE.literal 2 100))
         16) in
  let events : list Ev :=
    [Publish "sdf_pointcloud" (MsgXYZRGB (PointCloud.mk "world" []))] in
  VoxbloxNode_new transformTFToKindr fromROSMsg removeNaNFromPointCloud
    integratePointCloud FloatingPoint tf []
  = Some ([], mkVoxbloxNode "world" tf store, events)
  /\ getNumberOfAllocatedBlocks store = 0%nat
  /\ integrations events = []
  /\ published events = [MsgXYZRGB (PointCloud.mk "world" [])].
Proof.
  intros store events. split; [|done].
  unfold VoxbloxNode_new. cbn [spin]. unfold mbind, M_bind, mret, M_ret.
  by rewrite publishTsdfSurfacePoints_run.
Qed.

End Callback.

(** ** The callback run on the stand-ins *)

(** C4 as stated fails on the example observation: its pose lookup
    succeeds, the integrator leaves an observed voxel in the store, and the
    callback publishes one cloud, the surface; no distance field goes out,
    though dense-distance extraction would have had a point to give. *)
Lemma callback_publishes_no_distance_field :
  exists msg' node' events,
    lookupTransform (fun _ : unit => tt) (PointCloud2.frame_id example_msg)
      "world" (PointCloud2.stamp example_msg)
      (scenario_node tf_static scenario_A)
    = Some (Some tt, scenario_node tf_static scenario_A, [])
    /\ example_callback example_msg (scenario_node tf_static scenario_A)
       = Some (msg', node', events)
    /\ length (published events) = 1%nat
    /\ (forall cloud, MsgXYZI cloud ∉ published events)
    /\ (dense_emitted IEEE.binary32 (tsdf_map_ node')).*1
       = [((0, 0, 0), (1, 2, 3))].
Proof.
  assert (Hlookup :
    lookupTransform (fun _ : unit => tt) (PointCloud2.frame_id example_msg)
      "world" (PointCloud2.stamp example_msg)
      (scenario_node tf_static scenario_A)
    = Some (Some tt, scenario_node tf_static scenario_A, [])) by done.
  destruct (callback_found_effects (fun _ : unit => tt) example_fromROSMsg
              example_removeNaN example_integrator IEEE.binary32
              example_msg (scenario_node tf_static scenario_A) tt []
              Hlookup) as (events & Hrun & _ & Hpub).
  eexists _, _, events. split; [exact Hlookup|]. split; [exact Hrun|].
  rewrite Hpub. split; [done|]. split.
  - intros cloud Hin. apply list_elem_of_singleton in Hin. discriminate.
  - by vm_compute.
Qed.

Lemma observation_integrated_then_surface_published_witness :
  lookupTransform (fun _ : unit => tt) (PointCloud2.frame_id example_msg)
    "world" (PointCloud2.stamp example_msg)
    (scenario_node tf_static scenario_A)
  = Some (Some tt, scenario_node tf_static scenario_A, [])
  /\ exists msg' node' events,
       example_callback example_msg (scenario_node tf_static scenario_A)
       = Some (msg', node', events)
       /\ length (integrations events) = 1%nat
       /\ length (published events) = 1%nat.
Proof.
  assert (Hlookup :
    lookupTransform (fun _ : unit => tt) (PointCloud2.frame_id example_msg)
      "world" (PointCloud2.stamp example_msg)
      (scenario_node tf_static scenario_A)
    = Some (Some tt, scenario_node tf_static scenario_A, []))
    by reflexivity.
  split; [exact Hlookup|].
  destruct (observation_integrated_then_surface_published
              (fun _ : unit => tt) example_fromROSMsg example_removeNaN
              example_integrator IEEE.binary32 example_msg
              (scenario_node tf_static scenario_A) tt [] Hlookup)
    as (msg' & node' & events & Hrun & _ & Hint & Hpub & _).
  exists msg', node', events. split; [exact Hrun|].
  rewrite Hint, Hpub. split; reflexivity.
Defined.

Lemma failed_lookup_drops_observation_witness :
  let node1 := scenario_node tf_empty scenario_B in
  let log :=
    [Log (Transformation := unit) WARN
       "Using latest TF transform instead of timestamp match.";
     Log ERROR
       "Error getting TF transform from sensor data: lookup would require extrapolation"] in
  lookupTransform (fun _ : unit => tt) (PointCloud2.frame_id example_msg)
    "world" (PointCloud2.stamp example_msg) node1
  = Some (None, node1, log)
  /\ example_callback example_msg node1 = Some (example_msg, node1, log)
  /\ integrations log = [] /\ published log = [].
Proof.
  intros node1 log.
  assert (Hlookup :
    lookupTransform (fun _ : unit => tt) (PointCloud2.frame_id example_msg)
      "world" (PointCloud2.stamp example_msg) node1
    = Some (None, node1, log)) by reflexivity.
  split; [exact Hlookup|].
  destruct (failed_lookup_drops_observation
              (fun _ : unit => tt) example_fromROSMsg example_removeNaN
              example_integrator IEEE.binary32
              (scenario_node tf_static scenario_B)
              (mkArrival tf_empty example_msg) [] log Hlookup)
    as (Hrun & _ & Hint & Hpub & _).
  split; [exact Hrun|]. split; [exact Hint|exact Hpub].
Defined.




Lemma rgb_fields_become_float32_witness :
  lookupTransform (fun _ : unit => tt) (PointCloud2.frame_id example_msg)
    "world" (PointCloud2.stamp example_msg)
    (scenario_node tf_static scenario_A)
  = Some (Some tt, scenario_node tf_static scenario_A, [])
  /\ PointCloud2.fields example_msg !! 3%nat
     = Some (PointField.mk "rgb" 16 6 1)
  /\ exists msg' node' events,
       example_callback example_msg (scenario_node tf_static scenario_A)
       = Some (msg', node', events)
       /\ PointCloud2.fields msg' !! 3%nat
          = Some (PointField.mk "rgb" 16 PointField.FLOAT32 1)
       /\ msg' <> example_msg.
Proof.
  assert (Hlookup :
    lookupTransform (fun _ : unit => tt) (PointCloud2.frame_id example_msg)
      "world" (PointCloud2.stamp example_msg)
      (scenario_node tf_static scenario_A)
    = Some (Some tt, scenario_node tf_static scenario_A, []))
    by reflexivity.
  split; [exact Hlookup|]. split; [reflexivity|].
  destruct (rgb_fields_become_float32
              (fun _ : unit => tt) example_fromROSMsg example_removeNaN
              example_integrator IEEE.binary32 example_msg
              (scenario_node tf_static scenario_A) tt [] Hlookup)
    as (msg' & node' & events & Hrun & _ & Hfields & _).
  exists msg', node', events. split; [exact Hrun|].
  pose proof (Hfields 3%nat (PointField.mk "rgb" 16 6 1) eq_refl) as Hrgb.
  split; [exact Hrgb|].
  intros ->. discriminate Hrgb.
Defined.

(** The constructor's [ros::spinOnce()] runs the callback of an observation
    that is already queued: the store is then integrated into before the
    constructor's own publication, which is the second one. *)
Example constructor_with_queued_observation :
  exists msgs node events,
    VoxbloxNode_new (fun _ : unit => tt) example_fromROSMsg
      example_removeNaN example_integrator IEEE.binary32 tf_static
      [mkArrival tf_static example_msg]
    = Some (msgs, node, events)
    /\ length (integrations events) = 1%nat
    /\ length (published events) = 2%nat
    /\ getNumberOfAllocatedBlocks (tsdf_map_ node) = 1%nat.
Proof.
  eexists _, _, _. split; [by vm_compute|]. by vm_compute.
Qed.

(* ================================================================== *)
(** * Further properties of the extractions *)

Lemma bind_nil_all {A B : Type} (f : A -> list B) (l : list A) :
  (forall a, f a = []) -> l ≫= f = [].
Proof. intros Hf. induction l as [|a l IH]; csimpl; [done|]. by rewrite Hf, IH. Qed.

Lemma length_bind_const {A B : Type} (f : A -> list B) (l : list A) (k : nat) :
  (forall a, length (f a) = k) -> length (l ≫= f) = (length l * k)%nat.
Proof.
  intros Hf. induction l as [|a l IH]; csimpl; [done|].
  by rewrite length_app, Hf, IH.
Qed.

Lemma length_range (n : nat) : length (range n) = n.
Proof. unfold range. by rewrite length_fmap, length_seq. Qed.

Lemma length_voxel_indices (vps : nat) :
  length (voxel_indices vps) = (vps * vps * vps)%nat.
Proof.
  unfold voxel_indices.
  rewrite (length_bind_const _ _ (vps * vps)%nat), length_range; [lia|].
  intros x. rewrite (length_bind_const _ _ vps), length_range; [done|].
  intros y. rewrite (length_bind_const _ _ 1%nat), length_range; [lia|done].
Qed.

Lemma length_voxel_refs (m : TsdfMap.t) :
  length (voxel_refs m)
  = (getNumberOfAllocatedBlocks m * getTsdfVoxelsPerBlock m)%nat.
Proof.
  unfold voxel_refs.
  rewrite (length_bind_const _ _ (getTsdfVoxelsPerBlock m)).
  - unfold getAllAllocatedBlocks, getNumberOfAllocatedBlocks.
    by rewrite length_fmap, length_map_to_list.
  - intros index. rewrite length_fmap. apply length_voxel_indices.
Qed.

Lemma voxel_refs_nil (m : TsdfMap.t) :
  TsdfMap.block_map m = ∅ \/ TsdfMap.voxels_per_side m = 0%nat ->
  voxel_refs m = [].
Proof.
  intros Hempty. apply length_zero_iff_nil. rewrite length_voxel_refs.
  unfold getNumberOfAllocatedBlocks, getTsdfVoxelsPerBlock.
  destruct Hempty as [-> | ->]; [by rewrite map_size_empty|lia].
Qed.

(** An extraction that emits wherever another one does emits a sublist of
    its voxels. *)
Lemma emitted_sublist {P Q : Type}
    (emit1 : TsdfBlock.t -> VoxelIndex -> option P)
    (emit2 : TsdfBlock.t -> VoxelIndex -> option Q) (m : TsdfMap.t) :
  (forall block vi, is_Some (emit1 block vi) -> is_Some (emit2 block vi)) ->
  (emitted emit1 m).*1 `sublist_of` (emitted emit2 m).*1.
Proof.
  intros Himpl. unfold emitted.
  induction (voxel_refs m) as [|ref l IH]; [done|]. cbn.
  destruct (TsdfMap.block_map m !! ref.1) as [block|]; cbn; [|done].
  destruct (emit1 block ref.2) as [p|] eqn:H1; cbn.
  - destruct (Himpl block ref.2) as [q H2]; [by rewrite H1|].
    rewrite H2. cbn. by constructor.
  - destruct (emit2 block ref.2); cbn; [by constructor|done].
Qed.

Lemma surface_point_dense_point (FloatingPoint : IEEE.format)
    (thresh : float) (block : TsdfBlock.t) (vi : VoxelIndex) :
  is_Some (spec_surface_point FloatingPoint thresh block vi) ->
  is_Some (spec_distance_point FloatingPoint block vi).
Proof.
  unfold spec_surface_point, spec_distance_point.
  destruct (world_xyz _ _ _) as [[x y] z].
  destruct (decide (_ /\ _)) as [[Hobs _]|]; [|by intros [? ?]].
  by rewrite decide_True.
Qed.

Lemma observed_is_positive (voxel : TsdfVoxel.t) :
  observed voxel <-> is_positive (TsdfVoxel.weight voxel) = true.
Proof.
  unfold observed, SFltb.
  by destruct (TsdfVoxel.weight voxel) as [[]|[]| |[] ? ?].
Qed.

Section ExtractionFacts.

Context (FloatingPoint : IEEE.format).

(** X1. On a store with no block, or whose blocks have no voxel (side 0),
    both extractions succeed with an empty cloud. *)
Theorem extraction_of_empty_store (m : TsdfMap.t)
    (Hempty : TsdfMap.block_map m = ∅ \/ TsdfMap.voxels_per_side m = 0%nat) :
  tsdfSurfacePoints FloatingPoint m = Some []
  /\ allUpdatedTsdfVoxels FloatingPoint m = Some [].
Proof.
  rewrite tsdfSurfacePoints_emitted, allUpdatedTsdfVoxels_emitted.
  unfold surface_emitted, dense_emitted, emitted.
  by rewrite (voxel_refs_nil m Hempty).
Qed.

(** X2. The surface cloud is no longer than the dense cloud, and the dense
    cloud fits the capacity both publishers reserve: the number of
    allocated blocks times the number of voxels of a block. *)
Theorem extraction_fits_reserved_capacity (m : TsdfMap.t) :
  exists surface dense,
    tsdfSurfacePoints FloatingPoint m = Some surface
    /\ allUpdatedTsdfVoxels FloatingPoint m = Some dense
    /\ (length surface <= length dense)%nat
    /\ (length dense
        <= getNumberOfAllocatedBlocks m * getTsdfVoxelsPerBlock m)%nat.
Proof.
  eexists _, _. split; [apply tsdfSurfacePoints_emitted|].
  split; [apply allUpdatedTsdfVoxels_emitted|].
  rewrite !length_fmap.
  rewrite <- (length_fmap fst (surface_emitted FloatingPoint m)).
  rewrite <- !(length_fmap fst (dense_emitted FloatingPoint m)).
  rewrite <- length_voxel_refs. split; apply sublist_length.
  - apply emitted_sublist, surface_point_dense_point.
  - apply emitted_fst_sublist.
Qed.

(** X3. The voxels of the surface cloud appear in the dense cloud in the
    same relative order: the first list is obtained from the second by
    deleting entries. *)
Theorem surface_order_follows_dense (m : TsdfMap.t) :
  tsdfSurfacePoints FloatingPoint m
  = Some (surface_emitted FloatingPoint m).*2
  /\ allUpdatedTsdfVoxels FloatingPoint m
     = Some (dense_emitted FloatingPoint m).*2
  /\ (surface_emitted FloatingPoint m).*1
     `sublist_of` (dense_emitted FloatingPoint m).*1.
Proof.
  split; [apply tsdfSurfacePoints_emitted|].
  split; [apply allUpdatedTsdfVoxels_emitted|].
  apply emitted_sublist, surface_point_dense_point.
Qed.

End ExtractionFacts.

(** ** Weights, distances and voxel sizes at the edge *)

Lemma binary_round_aux_negative (prec emax m e : Z) (l : location) :
  is_positive (binary_round_aux prec emax true m e l) = false.
Proof.
  unfold binary_round_aux.
  destruct (shr_fexp prec emax m e l) as [mrs1 e1].
  destruct (shr_fexp prec emax _ e1 loc_Exact) as [mrs2 e2].
  destruct (shr_m mrs2); [done| |done]. by destruct (_ <=? _).
Qed.

Lemma convert_not_positive (f : IEEE.format) (x : spec_float) :
  is_positive x = false -> is_positive (IEEE.convert f x) = false.
Proof.
  destruct x as [s|[]| |[] m e]; try done. intros _. simpl.
  unfold binary_round. destruct (shl_align _ _ _) as [mz ez].
  apply binary_round_aux_negative.
Qed.

Lemma mul_not_positive (x : spec_float) (m : positive) (e : Z) :
  is_positive x = false ->
  is_positive (IEEE.mul IEEE.binary64 x (S754_finite false m e)) = false.
Proof.
  destruct x as [s|[]| |[] mx ex]; try done. intros _.
  apply binary_round_aux_negative.
Qed.

Lemma surface_distance_thresh_not_positive (m : TsdfMap.t) :
  is_positive (getTsdfVoxelSize m) = false ->
  is_positive (surface_distance_thresh m) = false.
Proof.
  intros Hsize. unfold surface_distance_thresh.
  rewrite literal_three_quarters.
  by apply convert_not_positive, mul_not_positive, convert_not_positive.
Qed.

Lemma abs_below_not_positive (d t : spec_float) :
  is_positive t = false -> SFltb (SFabs d) t = false.
Proof.
  unfold SFltb. by destruct d as [?|?| |? ? ?], t as [?|[]| |[] ? ?].
Qed.

Lemma emitted_nil {PointT : Type}
    (emit : TsdfBlock.t -> VoxelIndex -> option PointT) (m : TsdfMap.t) :
  (forall block vi, emit block vi = None) -> emitted emit m = [].
Proof.
  intros Hnone. unfold emitted.
  induction (voxel_refs m) as [|ref l IH]; [done|]. cbn.
  destruct (TsdfMap.block_map m !! ref.1) as [block|]; cbn; [|done].
  by rewrite Hnone.
Qed.

Section EdgeFacts.

Context (FloatingPoint : IEEE.format).

Lemma dense_emitted_iff (m : TsdfMap.t) (index : BlockIndex)
    (block : TsdfBlock.t) (vi : VoxelIndex) :
  TsdfMap.block_map m !! index = Some block ->
  in_block (getTsdfVoxelsPerSide m) vi ->
  forall p,
    (index, vi, p) ∈ dense_emitted FloatingPoint m
    <-> spec_distance_point FloatingPoint block vi = Some p.
Proof.
  intros Hblock Hin p. unfold dense_emitted. rewrite elem_of_emitted. split.
  - intros (_ & block' & Hblock' & Hp). simpl in *. congruence.
  - intros Hp. split; [apply elem_of_voxel_refs; eauto|]. eauto.
Qed.

Lemma surface_emitted_iff (m : TsdfMap.t) (index : BlockIndex)
    (block : TsdfBlock.t) (vi : VoxelIndex) :
  TsdfMap.block_map m !! index = Some block ->
  in_block (getTsdfVoxelsPerSide m) vi ->
  forall p,
    (index, vi, p) ∈ surface_emitted FloatingPoint m
    <-> spec_surface_point FloatingPoint (surface_distance_thresh m)
          block vi = Some p.
Proof.
  intros Hblock Hin p. unfold surface_emitted. rewrite elem_of_emitted. split.
  - intros (_ & block' & Hblock' & Hp). simpl in *. congruence.
  - intros Hp. split; [apply elem_of_voxel_refs; eauto|]. eauto.
Qed.

(** X4. Which weights pass [weight > 0]: dense-distance extraction emits a
    voxel of an allocated block exactly when its weight is a positive
    finite number or plus infinity.  A weight that is zero, negative or NaN
    keeps the voxel out of both clouds.  A voxel whose distance is NaN is
    never a surface point, but with a passing weight it is in the dense
    cloud, with NaN as intensity. *)
Theorem weight_and_distance_edges (m : TsdfMap.t) (index : BlockIndex)
    (block : TsdfBlock.t) (vi : VoxelIndex)
    (Hblock : TsdfMap.block_map m !! index = Some block)
    (Hin : in_block (getTsdfVoxelsPerSide m) vi) :
  let voxel := TsdfBlock.voxels block vi in
  tsdfSurfacePoints FloatingPoint m
  = Some (surface_emitted FloatingPoint m).*2
  /\ allUpdatedTsdfVoxels FloatingPoint m
     = Some (dense_emitted FloatingPoint m).*2
  /\ ((index, vi) ∈ (dense_emitted FloatingPoint m).*1
      <-> is_positive (TsdfVoxel.weight voxel) = true)
  /\ (is_positive (TsdfVoxel.weight voxel) = false ->
      (index, vi) ∉ (surface_emitted FloatingPoint m).*1)
  /\ (TsdfVoxel.distance voxel = S754_nan ->
      ((index, vi) ∉ (surface_emitted FloatingPoint m).*1)
      /\ (is_positive (TsdfVoxel.weight voxel) = true ->
          exists p, (index, vi, p) ∈ dense_emitted FloatingPoint m
                    /\ PointXYZI.intensity p = S754_nan)).
Proof.
  intros voxel.
  split; [apply tsdfSurfacePoints_emitted|].
  split; [apply allUpdatedTsdfVoxels_emitted|].
  assert (Hdense : forall p,
            spec_distance_point FloatingPoint block vi = Some p ->
            observed voxel /\ PointXYZI.intensity p = TsdfVoxel.distance voxel).
  { intros p. unfold spec_distance_point.
    destruct (world_xyz _ _ _) as [[x y] z].
    destruct (decide _); [|done]. intros. by simplify_eq. }
  assert (Hsurface : forall p,
            spec_surface_point FloatingPoint (surface_distance_thresh m)
              block vi = Some p ->
            observed voxel /\ near_surface (surface_distance_thresh m) voxel).
  { intros p. unfold spec_surface_point.
    destruct (world_xyz _ _ _) as [[x y] z].
    by destruct (decide _). }
  assert (Hemit : observed voxel ->
            exists p, (index, vi, p) ∈ dense_emitted FloatingPoint m
                      /\ PointXYZI.intensity p = TsdfVoxel.distance voxel).
  { intros Hobs.
    destruct (world_xyz FloatingPoint block vi) as [[x y] z] eqn:Hxyz.
    eexists. split.
    - apply (dense_emitted_iff m index block vi Hblock Hin).
      unfold spec_distance_point. rewrite Hxyz. by rewrite decide_True.
    - done. }
  split; [|split].
  - split.
    + intros [p Hp]%elem_of_emitted_fst.
      apply (dense_emitted_iff m index block vi Hblock Hin) in Hp.
      apply Hdense in Hp as [Hobs _]. by apply observed_is_positive.
    + intros Hobs%observed_is_positive.
      destruct (Hemit Hobs) as (p & Hp & _).
      apply elem_of_emitted_fst. by exists p.
  - intros Hweight [p Hp]%elem_of_emitted_fst.
    apply (surface_emitted_iff m index block vi Hblock Hin) in Hp.
    apply Hsurface in Hp as [Hobs%observed_is_positive _]. congruence.
  - intros Hnan. split.
    + intros [p Hp]%elem_of_emitted_fst.
    apply (surface_emitted_iff m index block vi Hblock Hin) in Hp.
    apply Hsurface in Hp as [_ Hnear]. unfold near_surface in Hnear.
    by rewrite Hnan in Hnear.
    + intros Hobs%observed_is_positive.
      destruct (Hemit Hobs) as (p & Hp & Hint). exists p. split; [done|].
      by rewrite Hint.
Qed.

(** X5. When the voxel size of the store is zero, negative or NaN, so is
    the threshold, and surface extraction emits nothing whatever the store
    holds. *)
Theorem no_surface_without_positive_voxel_size (m : TsdfMap.t)
    (Hsize : is_positive (getTsdfVoxelSize m) = false) :
  is_positive (surface_distance_thresh m) = false
  /\ tsdfSurfacePoints FloatingPoint m = Some [].
Proof.
  pose proof (surface_distance_thresh_not_positive m Hsize) as Hthresh.
  split; [done|]. rewrite tsdfSurfacePoints_emitted.
  unfold surface_emitted. rewrite emitted_nil; [done|].
  intros block vi. unfold spec_surface_point.
  destruct (world_xyz _ _ _) as [[x y] z].
  rewrite decide_False; [done|]. intros [_ Hnear].
  unfold near_surface in Hnear.
  by rewrite abs_below_not_positive in Hnear.
Qed.

End EdgeFacts.

(* ================================================================== *)
(** * Further properties of the callback, the queue and [main] *)

Lemma rgb_field_as_float32_other (field : PointField.t) :
  PointField.name field <> "rgb" -> rgb_field_as_float32 field = field.
Proof.
  intros Hname. unfold rgb_field_as_float32.
  by apply String.eqb_neq in Hname as ->.
Qed.

Lemma rgb_field_as_float32_twice (field : PointField.t) :
  rgb_field_as_float32 (rgb_field_as_float32 field)
  = rgb_field_as_float32 field.
Proof.
  unfold rgb_field_as_float32 at 2.
  destruct (String.eqb (PointField.name field) "rgb") eqn:Hname.
  - unfold rgb_field_as_float32. simpl. by rewrite Hname.
  - unfold rgb_field_as_float32. by rewrite Hname.
Qed.

Lemma rgb_as_float32_twice (msg : PointCloud2.t) :
  rgb_as_float32 (rgb_as_float32 msg) = rgb_as_float32 msg.
Proof.
  unfold rgb_as_float32. simpl. f_equal.
  rewrite <- list_fmap_compose. apply list_fmap_ext.
  intros i field _. apply rgb_field_as_float32_twice.
Qed.

Lemma rgb_as_float32_without_rgb (msg : PointCloud2.t) :
  Forall (fun field => PointField.name field <> "rgb")
         (PointCloud2.fields msg) ->
  rgb_as_float32 msg = msg.
Proof.
  intros Hnone. unfold rgb_as_float32.
  assert (Hsame : rgb_field_as_float32 <$> PointCloud2.fields msg
                  = PointCloud2.fields msg).
  { revert Hnone. generalize (PointCloud2.fields msg). intros l.
    induction 1 as [|field l Hfield _ IH]; [done|].
    csimpl. by rewrite rgb_field_as_float32_other, IH. }
  rewrite Hsame. apply with_fields_fields.
Qed.

Section Queue.

Context {StampedTransform Transformation : Type}.
Context (transformTFToKindr : StampedTransform -> Transformation).
Context (fromROSMsg : PointCloud2.t -> PointCloud.t PointXYZRGB.t).
Context (removeNaNFromPointCloud :
           PointCloud.t PointXYZRGB.t -> PointCloud.t PointXYZRGB.t).
Context (integratePointCloud :
           Transformation -> list Point.t -> list Color.t ->
           TsdfMap.t -> TsdfMap.t).
Context (FloatingPoint : IEEE.format).

#[local] Existing Instance M_ret.
#[local] Existing Instance M_bind.

#[local] Abbreviation Node := (VoxbloxNode (StampedTransform := StampedTransform)).
#[local] Abbreviation Ev := (Event (Transformation := Transformation)).
#[local] Abbreviation callback :=
  (insertPointcloudWithTf transformTFToKindr fromROSMsg
     removeNaNFromPointCloud integratePointCloud FloatingPoint).
#[local] Abbreviation serve :=
  (spin transformTFToKindr fromROSMsg removeNaNFromPointCloud
     integratePointCloud FloatingPoint).
#[local] Abbreviation filtered msg :=
  (PointCloud.points
     (removeNaNFromPointCloud (fromROSMsg (rgb_as_float32 msg)))).

(** The two outcomes of the callback. *)
Lemma callback_outcome (msg : PointCloud2.t) (node : Node) :
  exists msg' node' events,
    callback msg node = Some (msg', node', events)
    /\ world_frame_ node' = world_frame_ node
    /\ tf_listener_ node' = tf_listener_ node
    /\ ((msg' = msg /\ node' = node
         /\ integrations events = [] /\ published events = [])
        \/ (exists T_G_C,
              msg' = rgb_as_float32 msg
              /\ tsdf_map_ node'
                 = integratePointCloud T_G_C
                     (observation_points FloatingPoint (filtered msg))
                     (observation_colors (filtered msg)) (tsdf_map_ node)
              /\ integrations events
                 = [(T_G_C, observation_points FloatingPoint (filtered msg),
                     observation_colors (filtered msg))]
              /\ published events
                 = [MsgXYZRGB (PointCloud.mk (world_frame_ node)
                      (surface_emitted FloatingPoint (tsdf_map_ node')).*2)])).
Proof.
  destruct (lookupTransform_run transformTFToKindr
              (PointCloud2.frame_id msg) (world_frame_ node)
              (PointCloud2.stamp msg) node)
    as (found & log & Hlookup & Hint & Hpub & _).
  destruct found as [T|].
  - destruct (callback_found_effects transformTFToKindr fromROSMsg
                removeNaNFromPointCloud integratePointCloud FloatingPoint
                msg node T log Hlookup) as (events & Hrun & Hint' & Hpub').
    eexists _, _, events. split; [exact Hrun|]. split; [done|].
    split; [done|]. right. exists T. by repeat split.
  - eexists _, _, log. split; [by apply callback_not_found|].
    split; [done|]. split; [done|]. left. by repeat split.
Qed.

(** What a run of the queue keeps. *)
Lemma spin_outcome (queue : list Arrival) (node : Node) :
  exists msgs node' events,
    serve queue node = Some (msgs, node', events)
    /\ length msgs = length queue
    /\ world_frame_ node' = world_frame_ node
    /\ length (integrations events) = length (published events)
    /\ (length (published events) <= length queue)%nat
    /\ Forall (surface_in (world_frame_ node)) (published events)
    /\ (integrations events = [] ->
        tsdf_map_ node' = tsdf_map_ node /\ msgs = cloud_msg <$> queue).
Proof.
  revert node. induction queue as [|arrival rest IH]; intros node.
  - eexists _, _, _. split; [reflexivity|]. by repeat split.
  - set (node1 := mkVoxbloxNode (world_frame_ node) (tf_state arrival)
                    (tsdf_map_ node)).
    destruct (callback_outcome (cloud_msg arrival) node1)
      as (msg' & node2 & ev1 & Hrun & Hframe & _ & Hcases).
    destruct (IH node2)
      as (msgs & node3 & ev2 & Hrest & Hlen & Hframe' & Hcount & Hle
          & Hall & Hquiet).
    exists (msg' :: msgs), node3, (ev1 ++ ev2). split.
    { cbn [spin]. unfold mbind at 1, M_bind at 1, get at 1.
      unfold mbind at 1, M_bind at 1, put at 1.
      unfold mbind at 1, M_bind at 1. fold node1. rewrite Hrun.
      unfold mbind, M_bind, mret, M_ret. rewrite Hrest. simpl.
      by rewrite app_nil_r. }
    assert (Hframe1 : world_frame_ node2 = world_frame_ node)
      by (by rewrite Hframe).
    rewrite Hframe1 in *.
    unfold integrations, published in *. rewrite !omap_app, !length_app.
    split; [simpl; lia|]. split; [congruence|].
    destruct Hcases as [(-> & -> & Hi & Hp) | (T & -> & Hstore & Hi & Hp)];
      rewrite Hi, Hp; simpl.
    + split; [lia|]. split; [lia|]. split; [done|].
      intros Hnone. destruct (Hquiet Hnone) as [-> ->]. done.
    + split; [lia|]. split; [lia|]. split; [|done].
      constructor; [|done]. by eexists.
Qed.

(** X6. The queue is always served to the end: the callback never aborts
    (no field index is out of range and every enumerated block is found),
    one message comes back per arrival, and the world frame of the node is
    never changed. *)
Theorem spin_serves_every_arrival (queue : list Arrival) (node : Node) :
  exists msgs node' events,
    serve queue node = Some (msgs, node', events)
    /\ length msgs = length queue
    /\ world_frame_ node' = world_frame_ node.
Proof.
  destruct (spin_outcome queue node)
    as (msgs & node' & events & Hrun & Hlen & Hframe & _).
  by exists msgs, node', events.
Qed.

(** X7. In any run of the queue there are as many publications as calls
    to the integrator, and no more of either than arrivals. *)
Theorem one_publication_per_integration (queue : list Arrival) (node : Node) :
  exists msgs node' events,
    serve queue node = Some (msgs, node', events)
    /\ length (published events) = length (integrations events)
    /\ (length (integrations events) <= length queue)%nat.
Proof.
  destruct (spin_outcome queue node)
    as (msgs & node' & events & Hrun & _ & _ & Hcount & Hle & _).
  exists msgs, node', events. split; [done|]. split; [done|]. lia.
Qed.

(** X8. Whatever arrives, every cloud the callbacks publish is a surface
    cloud (x, y, z, r, g, b) tagged with the node's world frame; a distance
    field is never published. *)
Theorem only_surface_clouds_published (queue : list Arrival) (node : Node) :
  exists msgs node' events,
    serve queue node = Some (msgs, node', events)
    /\ Forall (surface_in (world_frame_ node)) (published events)
    /\ (forall cloud, MsgXYZI cloud ∉ published events).
Proof.
  destruct (spin_outcome queue node)
    as (msgs & node' & events & Hrun & _ & _ & _ & _ & Hall & _).
  exists msgs, node', events. split; [done|]. split; [done|].
  intros cloud Hin. rewrite Forall_forall in Hall.
  by destruct (Hall _ Hin) as [points ?].
Qed.

(** X9. When no observation of the queue reaches the integrator, the store
    is the one the run started with and every message comes back as it
    arrived. *)
Theorem store_changes_only_by_integration (queue : list Arrival)
    (node : Node) :
  exists msgs node' events,
    serve queue node = Some (msgs, node', events)
    /\ (integrations events = [] ->
        tsdf_map_ node' = tsdf_map_ node
        /\ msgs = cloud_msg <$> queue
        /\ published events = []).
Proof.
  destruct (spin_outcome queue node)
    as (msgs & node' & events & Hrun & _ & _ & Hcount & _ & _ & Hquiet).
  exists msgs, node', events. split; [done|]. intros Hnone.
  destruct (Hquiet Hnone) as [? ?]. split; [done|]. split; [done|].
  rewrite Hnone in Hcount. simpl in Hcount.
  by destruct (published events).
Qed.

(** X11. [main] always runs: the node comes up and serves everything.
    Counting the constructor's own publication, one more cloud is
    published than observations are integrated; every cloud is a surface
    cloud in frame [world], and the last one published by the constructor
    is the surface of the store as the queued callbacks left it. *)
Theorem main_publishes_surface_clouds
    (tf : TransformListener (StampedTransform := StampedTransform))
    (pending incoming : list Arrival) :
  exists msgs0 node0 events0 msgs node events,
    VoxbloxNode_new transformTFToKindr fromROSMsg removeNaNFromPointCloud
      integratePointCloud FloatingPoint tf pending
    = Some (msgs0, node0, events0)
    /\ (exists before,
          events0
          = before
            ++ [Publish "sdf_pointcloud"
                  (MsgXYZRGB (PointCloud.mk "world"
                     (surface_emitted FloatingPoint (tsdf_map_ node0)).*2))])
    /\ main transformTFToKindr fromROSMsg removeNaNFromPointCloud
         integratePointCloud FloatingPoint tf pending incoming
       = Some (msgs, node, events)
    /\ length msgs = (length pending + length incoming)%nat
    /\ world_frame_ node = "world"
    /\ length (published events) = S (length (integrations events))
    /\ Forall (surface_in "world") (published events).
Proof.
  set (node_init :=
         mkVoxbloxNode "world" tf
           (TsdfMap_new
              (TsdfMap.mkConfig
                 (IEEE.convert FloatingPoint (IEEE.literal 2 100)) 16))).
  destruct (spin_outcome pending node_init)
    as (msgs0 & node0 & ev0 & Hrun0 & Hlen0 & Hframe0 & Hcount0 & _
        & Hall0 & _).
  destruct (spin_outcome incoming node0)
    as (msgs1 & node1 & ev1 & Hrun1 & Hlen1 & Hframe1 & Hcount1 & _
        & Hall1 & _).
  simpl in Hframe0. rewrite Hframe0 in *.
  assert (Hnew :
    VoxbloxNode_new transformTFToKindr fromROSMsg removeNaNFromPointCloud
      integratePointCloud FloatingPoint tf pending
    = Some (msgs0, node0,
            ev0 ++ [Publish "sdf_pointcloud"
                      (MsgXYZRGB (PointCloud.mk "world"
                         (surface_emitted FloatingPoint
                            (tsdf_map_ node0)).*2))])).
  { unfold VoxbloxNode_new. fold node_init.
    unfold mbind at 1, M_bind at 1. rewrite Hrun0.
    unfold mbind, M_bind, mret, M_ret.
    by rewrite publishTsdfSurfacePoints_run, Hframe0. }
  eexists _, _, _, _, _, _. split; [exact Hnew|].
  split; [by eexists|]. split.
  { unfold main. rewrite Hnew, Hrun1. reflexivity. }
  rewrite length_app. split; [lia|]. split; [congruence|].
  unfold integrations, published in *.
  rewrite !omap_app, !length_app. simpl. split; [lia|].
  rewrite !Forall_app. split; [split|]; [done| |done].
  constructor; [by eexists|done].
Qed.

(** X12. Whatever the outcome of the pose lookup, the callback changes at
    most the datatype of fields named [rgb]: header, payload, density flag,
    number of fields, and every field's name, offset and count are as they
    arrived. *)
Theorem callback_changes_only_rgb_datatype
    (msg msg' : PointCloud2.t) (node node' : Node) (events : list Ev)
    (Hrun : callback msg node = Some (msg', node', events)) :
  PointCloud2.frame_id msg' = PointCloud2.frame_id msg
  /\ PointCloud2.stamp msg' = PointCloud2.stamp msg
  /\ PointCloud2.data msg' = PointCloud2.data msg
  /\ PointCloud2.is_dense msg' = PointCloud2.is_dense msg
  /\ length (PointCloud2.fields msg') = length (PointCloud2.fields msg)
  /\ forall d field,
       PointCloud2.fields msg !! d = Some field ->
       exists field',
         PointCloud2.fields msg' !! d = Some field'
         /\ PointField.name field' = PointField.name field
         /\ PointField.offset field' = PointField.offset field
         /\ PointField.count field' = PointField.count field
         /\ (PointField.name field <> "rgb" -> field' = field).
Proof.
  destruct (callback_outcome msg node)
    as (msg1 & node1 & ev1 & Hrun1 & _ & _ & Hcases).
  rewrite Hrun in Hrun1. simplify_eq.
  destruct Hcases as [(-> & _) | (T & -> & _)].
  - repeat split; try done. intros d field Hd. exists field. by repeat split.
  - unfold rgb_as_float32. simpl.
    split; [done|]. split; [done|]. split; [done|]. split; [done|].
    split; [apply length_fmap|]. intros d field Hd.
    exists (rgb_field_as_float32 field).
    rewrite list_lookup_fmap, Hd. split; [done|].
    unfold rgb_field_as_float32.
    destruct (String.eqb (PointField.name field) "rgb") eqn:Hname;
      [|by repeat split].
    apply String.eqb_eq in Hname. by repeat split.
Qed.

(** X13. A message that has no field named [rgb] comes back from the
    callback exactly as it arrived. *)
Theorem callback_keeps_message_without_rgb
    (msg msg' : PointCloud2.t) (node node' : Node) (events : list Ev)
    (Hnone : Forall (fun field => PointField.name field <> "rgb")
               (PointCloud2.fields msg))
    (Hrun : callback msg node = Some (msg', node', events)) :
  msg' = msg.
Proof.
  destruct (callback_outcome msg node)
    as (msg1 & node1 & ev1 & Hrun1 & _ & _ & Hcases).
  rewrite Hrun in Hrun1. simplify_eq.
  destruct Hcases as [(-> & _) | (T & -> & _)]; [done|].
  by apply rgb_as_float32_without_rgb.
Qed.

(** X14. Once a message has been through a callback that reached the
    integrator, delivering the same message object again, to any node,
    does not change it further. *)
Theorem callback_redelivery_keeps_message
    (msg msg1 msg2 : PointCloud2.t) (node node1 node2 node3 : Node)
    (events1 events2 : list Ev)
    (Hfirst : callback msg node = Some (msg1, node1, events1))
    (Hintegrated : integrations events1 <> [])
    (Hsecond : callback msg1 node2 = Some (msg2, node3, events2)) :
  msg2 = msg1.
Proof.
  destruct (callback_outcome msg node)
    as (m1 & n1 & e1 & Hrun1 & _ & _ & Hcases1).
  rewrite Hfirst in Hrun1. simplify_eq.
  destruct Hcases1 as [(_ & _ & Hnone & _) | (T & -> & _)]; [done|].
  destruct (callback_outcome (rgb_as_float32 msg) node2)
    as (m2 & n2 & e2 & Hrun2 & _ & _ & Hcases2).
  rewrite Hsecond in Hrun2. simplify_eq.
  destruct Hcases2 as [(-> & _) | (T' & -> & _)]; [done|].
  apply rgb_as_float32_twice.
Qed.

(** X15. What the integrator receives is the filtered cloud, point by
    point and in its order: at every index the point has the coordinates
    and the colour has the four channels (alpha included) of the same
    point of the cloud, and past the end of the cloud both sequences end. *)
Theorem integration_inputs_follow_cloud
    (msg msg' : PointCloud2.t) (node node' : Node) (events : list Ev)
    (Hrun : callback msg node = Some (msg', node', events))
    (T_G_C : Transformation) (points_C : list Point.t)
    (colors : list Color.t)
    (Hcall : (T_G_C, points_C, colors) ∈ integrations events) :
  msg' = rgb_as_float32 msg
  /\ forall i : nat,
       points_C !! i
       = (fun p => Point.mk (IEEE.convert FloatingPoint (PointXYZRGB.x p))
                            (IEEE.convert FloatingPoint (PointXYZRGB.y p))
                            (IEEE.convert FloatingPoint (PointXYZRGB.z p)))
           <$> filtered msg !! i
       /\ colors !! i
          = (fun p => Color.mk (PointXYZRGB.r p) (PointXYZRGB.g p)
                               (PointXYZRGB.b p) (PointXYZRGB.a p))
              <$> filtered msg !! i.
Proof.
  destruct (callback_outcome msg node)
    as (msg1 & node1 & ev1 & Hrun1 & _ & _ & Hcases).
  rewrite Hrun in Hrun1. simplify_eq.
  destruct Hcases as [(_ & _ & Hnone & _) | (T & -> & _ & Hint & _)].
  - rewrite Hnone in Hcall. by apply elem_of_nil in Hcall.
  - rewrite Hint in Hcall. apply list_elem_of_singleton in Hcall.
    simplify_eq. split; [done|]. intros i.
    unfold observation_points, observation_colors.
    by rewrite !list_lookup_fmap.
Qed.

(** X16. An observation in which the filter leaves no point is not
    skipped: the integrator is still called, with two empty sequences, and
    the surface of the resulting store is published. *)
Theorem empty_cloud_is_still_integrated
    (msg : PointCloud2.t) (node : Node) (T_G_C : Transformation)
    (log : list Ev)
    (Hlookup :
       lookupTransform transformTFToKindr (PointCloud2.frame_id msg)
         (world_frame_ node) (PointCloud2.stamp msg) node
       = Some (Some T_G_C, node, log))
    (Hempty : filtered msg = []) :
  exists msg' node' events,
    callback msg node = Some (msg', node', events)
    /\ integrations events = [(T_G_C, [], [])]
    /\ tsdf_map_ node' = integratePointCloud T_G_C [] [] (tsdf_map_ node)
    /\ published events
       = [MsgXYZRGB (PointCloud.mk (world_frame_ node)
            (surface_emitted FloatingPoint (tsdf_map_ node')).*2)].
Proof.
  destruct (callback_found_effects transformTFToKindr fromROSMsg
              removeNaNFromPointCloud integratePointCloud FloatingPoint
              msg node T_G_C log Hlookup) as (events & Hrun & Hint & Hpub).
  rewrite Hempty in *. simpl in *.
  eexists _, _, events. split; [exact Hrun|]. by repeat split.
Qed.

(** X17. [lookupTransform] asks tf once: at the stamp when
    [canTransform] holds there, at time 0 and with a warning when it does
    not.  What that one lookup gives decides everything: with a transform
    the function returns it and the callback integrates the observation
    with it; with a throw the function returns false with the error
    logged and the callback drops the observation, the latest transform
    not being tried after a throw at the stamp. *)
Theorem lookupTransform_fallback_policy (msg : PointCloud2.t) (node : Node) :
  let tf := tf_listener_ node in
  let from_frame := PointCloud2.frame_id msg in
  let to_frame := world_frame_ node in
  let timestamp := PointCloud2.stamp msg in
  let can := tf_canTransform tf to_frame from_frame timestamp in
  let asked : ros_Time := if can then timestamp else 0 in
  let warning : list Ev :=
    if can then []
    else [Log WARN "Using latest TF transform instead of timestamp match."] in
  match tf_lookupTransform tf to_frame from_frame asked with
  | inr tf_transform =>
      lookupTransform transformTFToKindr from_frame to_frame timestamp node
      = Some (Some (transformTFToKindr tf_transform), node, warning)
      /\ exists msg' node' events points_C colors,
           callback msg node = Some (msg', node', events)
           /\ integrations events
              = [(transformTFToKindr tf_transform, points_C, colors)]
  | inl what =>
      lookupTransform transformTFToKindr from_frame to_frame timestamp node
      = Some (None, node,
              warning
              ++ [Log ERROR
                    ("Error getting TF transform from sensor data: "
                     +:+ what)])
      /\ callback msg node
         = Some (msg, node,
                 warning
                 ++ [Log ERROR
                       ("Error getting TF transform from sensor data: "
                        +:+ what)])
  end.
Proof.
  intros tf from_frame to_frame timestamp can asked warning.
  assert (Hlookup :
    lookupTransform transformTFToKindr from_frame to_frame timestamp node
    = Some (match tf_lookupTransform tf to_frame from_frame asked with
            | inl _ => None
            | inr tf_transform => Some (transformTFToKindr tf_transform)
            end, node,
            warning
            ++ match tf_lookupTransform tf to_frame from_frame asked with
               | inl what =>
                   [Log ERROR
                      ("Error getting TF transform from sensor data: "
                       +:+ what)]
               | inr _ => []
               end)).
  { unfold lookupTransform, mbind, M_bind, mret, M_ret, get, emit. simpl.
    subst asked warning can tf. 
    destruct (tf_canTransform _ _ _ _); simpl;
      by destruct (tf_lookupTransform _ _ _ _). }
  destruct (tf_lookupTransform tf to_frame from_frame asked)
    as [what|tf_transform].
  - split; [exact Hlookup|]. by apply callback_not_found.
  - rewrite app_nil_r in Hlookup. split; [exact Hlookup|].
    destruct (callback_found_effects transformTFToKindr fromROSMsg
                removeNaNFromPointCloud integratePointCloud FloatingPoint
                msg node (transformTFToKindr tf_transform) warning Hlookup)
      as (events & Hrun & Hint & _).
    by eexists _, _, events, _, _.
Qed.

End Queue.

(** ** Instances of the further properties *)

Lemma extraction_of_empty_store_witness :
  (TsdfMap.block_map scenario_A = ∅
   \/ TsdfMap.voxels_per_side scenario_A = 0%nat)
  /\ (TsdfMap.block_map zero_side_store = ∅
      \/ TsdfMap.voxels_per_side zero_side_store = 0%nat)
  /\ tsdfSurfacePoints IEEE.binary32 scenario_A = Some []
  /\ allUpdatedTsdfVoxels IEEE.binary64 zero_side_store = Some [].
Proof.
  assert (HA : TsdfMap.block_map scenario_A = ∅
               \/ TsdfMap.voxels_per_side scenario_A = 0%nat)
    by (left; reflexivity).
  assert (HZ : TsdfMap.block_map zero_side_store = ∅
               \/ TsdfMap.voxels_per_side zero_side_store = 0%nat)
    by (right; reflexivity).
  split; [exact HA|]. split; [exact HZ|]. split.
  - exact (proj1 (extraction_of_empty_store IEEE.binary32 scenario_A HA)).
  - exact (proj2 (extraction_of_empty_store IEEE.binary64 zero_side_store HZ)).
Defined.

Lemma weight_and_distance_edges_witness :
  let m := odd_store S754_nan (IEEE.of_Z IEEE.binary32 1) in
  TsdfMap.block_map m !! (0, 0, 0)
  = Some (odd_block S754_nan (IEEE.of_Z IEEE.binary32 1))
  /\ in_block (getTsdfVoxelsPerSide m) (1, 2, 3)
  /\ (((0, 0, 0), (1, 2, 3)) ∉ (surface_emitted IEEE.binary32 m).*1)
  /\ ((0, 0, 0), (1, 2, 3)) ∈ (dense_emitted IEEE.binary32 m).*1.
Proof.
  intros m.
  assert (Hblock : TsdfMap.block_map m !! (0, 0, 0)
                   = Some (odd_block S754_nan (IEEE.of_Z IEEE.binary32 1)))
    by (by vm_compute).
  assert (Hin : in_block (getTsdfVoxelsPerSide m) (1, 2, 3))
    by (cbv [in_block getTsdfVoxelsPerSide m odd_store
             TsdfMap.voxels_per_side]; lia).
  split; [exact Hblock|]. split; [exact Hin|].
  destruct (weight_and_distance_edges IEEE.binary32 m (0, 0, 0) _ (1, 2, 3)
              Hblock Hin) as (_ & _ & Hdense & _ & Hnan).
  split.
  - apply Hnan. reflexivity.
  - apply Hdense. reflexivity.
Defined.

Lemma no_surface_without_positive_voxel_size_witness :
  is_positive (getTsdfVoxelSize zero_size_store) = false
  /\ tsdfSurfacePoints IEEE.binary32 zero_size_store = Some []
  /\ (dense_emitted IEEE.binary32 zero_size_store).*1
     = [((0, 0, 0), (1, 2, 3))].
Proof.
  assert (Hsize : is_positive (getTsdfVoxelSize zero_size_store) = false)
    by reflexivity.
  split; [exact Hsize|]. split.
  - exact (proj2 (no_surface_without_positive_voxel_size IEEE.binary32
                    zero_size_store Hsize)).
  - by vm_compute.
Defined.

Lemma example_lookup_found (m : TsdfMap.t) (msg : PointCloud2.t) :
  lookupTransform (fun _ : unit => tt) (PointCloud2.frame_id msg)
    (world_frame_ (scenario_node tf_static m)) (PointCloud2.stamp msg)
    (scenario_node tf_static m)
  = Some (Some tt, scenario_node tf_static m, []).
Proof. reflexivity. Qed.

Lemma callback_changes_only_rgb_datatype_witness :
  exists msg' node' events,
    example_callback example_msg (scenario_node tf_static scenario_A)
    = Some (msg', node', events)
    /\ PointCloud2.frame_id msg' = "camera"
    /\ length (PointCloud2.fields msg') = 4%nat.
Proof.
  destruct (callback_found_effects (fun _ : unit => tt) example_fromROSMsg
              example_removeNaN example_integrator IEEE.binary32
              example_msg (scenario_node tf_static scenario_A) tt []
              (example_lookup_found scenario_A example_msg))
    as (events & Hrun & _).
  eexists _, _, events. split; [exact Hrun|].
  pose proof Hrun as Hshape.
  apply callback_changes_only_rgb_datatype in Hshape
    as (Hframe & _ & _ & _ & Hlen & _).
  split; [exact Hframe|exact Hlen].
Defined.

Lemma callback_keeps_message_without_rgb_witness :
  Forall (fun field => PointField.name field <> "rgb")
         (PointCloud2.fields plain_msg)
  /\ exists msg' node' events,
       example_callback plain_msg (scenario_node tf_static scenario_A)
       = Some (msg', node', events)
       /\ length (integrations events) = 1%nat
       /\ msg' = plain_msg.
Proof.
  assert (Hnone : Forall (fun field => PointField.name field <> "rgb")
                         (PointCloud2.fields plain_msg))
    by (repeat (constructor; [discriminate|]); constructor).
  split; [exact Hnone|].
  destruct (callback_found_effects (fun _ : unit => tt) example_fromROSMsg
              example_removeNaN example_integrator IEEE.binary32
              plain_msg (scenario_node tf_static scenario_A) tt []
              (example_lookup_found scenario_A plain_msg))
    as (events & Hrun & Hint & _).
  eexists _, _, events. split; [exact Hrun|].
  split; [by rewrite Hint|].
  eapply callback_keeps_message_without_rgb; [exact Hnone|exact Hrun].
Defined.

Lemma callback_redelivery_keeps_message_witness :
  exists msg1 node1 events1 msg2 node2 events2,
    example_callback example_msg (scenario_node tf_static scenario_A)
    = Some (msg1, node1, events1)
    /\ integrations events1 <> []
    /\ example_callback msg1 (scenario_node tf_static scenario_B)
       = Some (msg2, node2, events2)
    /\ msg1 <> example_msg
    /\ msg2 = msg1.
Proof.
  destruct (callback_found_effects (fun _ : unit => tt) example_fromROSMsg
              example_removeNaN example_integrator IEEE.binary32
              example_msg (scenario_node tf_static scenario_A) tt []
              (example_lookup_found scenario_A example_msg))
    as (events1 & Hfirst & Hint & _).
  destruct (callback_found_effects (fun _ : unit => tt) example_fromROSMsg
              example_removeNaN example_integrator IEEE.binary32
              (rgb_as_float32 example_msg)
              (scenario_node tf_static scenario_B) tt []
              (example_lookup_found scenario_B (rgb_as_float32 example_msg)))
    as (events2 & Hsecond & _).
  assert (Hintegrated : integrations events1 <> [])
    by (rewrite Hint; discriminate).
  eexists _, _, events1, _, _, events2.
  split; [exact Hfirst|]. split; [exact Hintegrated|].
  split; [exact Hsecond|]. split; [discriminate|].
  eapply callback_redelivery_keeps_message;
    [exact Hfirst|exact Hintegrated|exact Hsecond].
Defined.

Lemma integration_inputs_follow_cloud_witness :
  exists msg' node' events T_G_C points_C colors,
    example_callback example_msg (scenario_node tf_static scenario_A)
    = Some (msg', node', events)
    /\ (T_G_C, points_C, colors) ∈ integrations events
    /\ points_C !! 0%nat
       = Some (Point.mk (IEEE.of_Z IEEE.binary32 1)
                 (IEEE.of_Z IEEE.binary32 2) (IEEE.of_Z IEEE.binary32 3))
    /\ colors !! 0%nat = Some (Color.mk 10 20 30 255)
    /\ points_C !! 1%nat = None /\ colors !! 1%nat = None.
Proof.
  destruct (callback_found_effects (fun _ : unit => tt) example_fromROSMsg
              example_removeNaN example_integrator IEEE.binary32
              example_msg (scenario_node tf_static scenario_A) tt []
              (example_lookup_found scenario_A example_msg))
    as (events & Hrun & Hint & _).
  eexists _, _, events, _, _, _. split; [exact Hrun|].
  assert (Hcall :
    (tt,
     observation_points IEEE.binary32
       (PointCloud.points
          (example_removeNaN
             (example_fromROSMsg (rgb_as_float32 example_msg)))),
     observation_colors
       (PointCloud.points
          (example_removeNaN
             (example_fromROSMsg (rgb_as_float32 example_msg)))))
    ∈ integrations events)
    by (rewrite Hint; apply list_elem_of_singleton; reflexivity).
  split; [exact Hcall|].
  destruct (integration_inputs_follow_cloud _ _ _ _ _ _ _ _ _ _ Hrun
              _ _ _ Hcall) as [_ Hat].
  destruct (Hat 0%nat) as [Hp0 Hc0]. destruct (Hat 1%nat) as [Hp1 Hc1].
  split; [exact Hp0|]. split; [exact Hc0|]. split; [exact Hp1|exact Hc1].
Defined.

Lemma empty_cloud_is_still_integrated_witness :
  PointCloud.points
    (example_removeNaN (empty_fromROSMsg (rgb_as_float32 example_msg))) = []
  /\ exists msg' node' events,
       insertPointcloudWithTf (fun _ : unit => tt) empty_fromROSMsg
         example_removeNaN example_integrator IEEE.binary32 example_msg
         (scenario_node tf_static scenario_B)
       = Some (msg', node', events)
       /\ integrations events = [(tt, [], [])]
       /\ length (published events) = 1%nat.
Proof.
  assert (Hempty :
    PointCloud.points
      (example_removeNaN (empty_fromROSMsg (rgb_as_float32 example_msg)))
    = []) by reflexivity.
  split; [exact Hempty|].
  destruct (empty_cloud_is_still_integrated (fun _ : unit => tt)
              empty_fromROSMsg example_removeNaN example_integrator
              IEEE.binary32 example_msg (scenario_node tf_static scenario_B)
              tt [] (example_lookup_found scenario_B example_msg) Hempty)
    as (msg' & node' & events & Hrun & Hint & _ & Hpub).
  exists msg', node', events. split; [exact Hrun|]. split; [exact Hint|].
  by rewrite Hpub.
Defined.

Lemma lookupTransform_fallback_policy_witness :
  tf_lookupTransform tf_latest_only "world" "camera" 0 = inr tt
  /\ example_callback example_msg (scenario_node tf_latest_only scenario_A)
     = Some (example_msg, scenario_node tf_latest_only scenario_A,
             [Log ERROR
                "Error getting TF transform from sensor data: lookup would require extrapolation"])
  /\ lookupTransform (fun _ : unit => tt) "camera" "world" 42
       (scenario_node tf_unstamped scenario_A)
     = Some (Some tt, scenario_node tf_unstamped scenario_A,
             [Log WARN
                "Using latest TF transform instead of timestamp match."]).
Proof.
  split; [reflexivity|]. split.
  - exact (proj2 (lookupTransform_fallback_policy (fun _ : unit => tt)
                    example_fromROSMsg example_removeNaN example_integrator
                    IEEE.binary32 example_msg
                    (scenario_node tf_latest_only scenario_A))).
  - exact (proj1 (lookupTransform_fallback_policy (fun _ : unit => tt)
                    example_fromROSMsg example_removeNaN example_integrator
                    IEEE.binary32 example_msg
                    (scenario_node tf_unstamped scenario_A))).
Defined.
